(** * rbx-assetdump: the fetch / download / manifest pipeline of [main.py]

    A shallow embedding of [src/main.py] and the properties of its
    asynchronous pipeline: metadata batching ([get_asset_information]),
    content retrieval ([get_asset_contents]), the asset writer
    ([download_asset_to_path]) and the orchestration and manifest code of
    [main].

    Modelling choices.
    - Python [int] is [Z]; [bytes] is [list byte]; [str] is [string].
    - A [pathlib.Path] is the list of its components, so [path / name]
      appends one component.
    - The [results] dict of [get_asset_information] is a [gmap]; the manifest
      records are insertion-ordered dicts (association lists with Python's
      item assignment), because [json.dumps] emits keys in that order.
    - The code of [main] and of what it awaits runs in the monad [M]: a
      world (file system, trace of actions, requests sent so far) is threaded
      through, and a raised exception is the left summand of the result. The
      trace records the I/O and also the two mutations of [result_metadata]
      (append a record, assign a key of the i-th record), so that their order
      relative to the I/O can be stated.
    - A coroutine object is a suspended [M] computation. Calling an [async
      def] function only builds the object; [await] runs it. The program has
      one task (the one [run_until_complete] makes for [main]), so an awaited
      coroutine runs to completion before its awaiter goes on.
    - The remote services, the writability of paths and [json.dumps] are
      parameters of the development. *)

From stdpp Require Import gmap strings list fin_maps pretty.
From Stdlib Require Import Strings.Byte.

Set Default Proof Using "Type".
Set Warnings "-register-all".

(** ** Values *)

Abbreviation Path := (list string).

(** [path / name] for a one-component relative [name]. *)
Definition path_join (path : Path) (name : string) : Path := path ++ [name].

(** JSON-serialisable Python values, as [json.dumps] receives them. *)
Inductive pyval :=
| PyStr (s : string)
| PyInt (z : Z)
| PyBool (b : bool)
| PyList (l : list pyval)
| PyDict (d : list (string * pyval)).

Abbreviation pydict := (list (string * pyval)).

(** [d[k]] read, and [d[k] = v]: an existing key keeps its position, a new
    key goes last. *)
Fixpoint dict_get (d : pydict) (k : string) : option pyval :=
  match d with
  | [] => None
  | (k', v) :: d' => if decide (k' = k) then Some v else dict_get d' k
  end.

Fixpoint dict_set (d : pydict) (k : string) (v : pyval) : pydict :=
  match d with
  | [] => [(k, v)]
  | (k', v') :: d' =>
      if decide (k' = k) then (k', v) :: d' else (k', v') :: dict_set d' k v
  end.

Definition dict_keys (d : pydict) : list string := d.*1.

(** One element of the ["data"] array of a metadata response; only the three
    keys the program reads are kept. *)
Record asset_data := AssetData {
  ad_id : Z;
  ad_name : string;
  ad_typeId : Z
}.

(** What a file holds: bytes (mode ["wb"]) or text (mode ["w"]). *)
Inductive data :=
| Bytes (b : list byte)
| Str (s : string).

Inductive open_mode := ModeWB | ModeW.

Definition empty_data (mode : open_mode) : data :=
  match mode with ModeWB => Bytes [] | ModeW => Str "" end.

(** ** Exceptions, observable actions, the world *)

Inductive exn :=
| ClientConnectionError
| ClientResponseError (status : Z)
| KeyError (key : Z)
| IndexError
| TypeError
| OSError (p : Path).

Inductive event :=
| Echo (line : string)               (* typer.echo *)
| GetAssets (assetIds : list Z)      (* GET develop.roblox.com/v1/assets *)
| GetAsset (id : Z)                  (* GET assetdelivery.roblox.com/v1/asset *)
| FileOpen (p : Path) (mode : open_mode)
| FileWrite (p : Path) (d : data)
| FileClose (p : Path)
| Progress                           (* the progress bar moves past one item *)
| RecordAppend (record : list (string * pyval))
                                     (* result_metadata.append(record) *)
| RecordSet (i : nat) (key : string) (v : pyval).
                                     (* result_metadata[i][key] = v *)

Record world := World {
  fs : gmap Path data;
  trace : list event;
  develop_sent : nat;                (* metadata queries sent so far *)
  delivery_sent : nat                (* content queries sent so far *)
}.

Definition init_world (fs0 : gmap Path data) : world :=
  {| fs := fs0; trace := []; develop_sent := 0; delivery_sent := 0 |}.

Definition log (e : event) (w : world) : world :=
  {| fs := fs w; trace := trace w ++ [e];
     develop_sent := develop_sent w; delivery_sent := delivery_sent w |}.

Definition set_fs (f : gmap Path data) (w : world) : world :=
  {| fs := f; trace := trace w;
     develop_sent := develop_sent w; delivery_sent := delivery_sent w |}.

(** ** The monad of awaited code *)

Definition M (A : Type) : Type := world → (exn + A) * world.

Definition ret {A} (a : A) : M A := λ w, (inr a, w).

Definition raise {A} (e : exn) : M A := λ w, (inl e, w).

Definition bind {A B} (c : M A) (k : A → M B) : M B := λ w,
  match c w with
  | (inl e, w') => (inl e, w')
  | (inr a, w') => k a w'
  end.

Notation "x <- c ;; k" := (bind c (λ x, k))
  (at level 100, c at next level, right associativity).
Notation "c ;;; k" := (bind c (λ _, k))
  (at level 100, right associativity).

(** [try: r = (True, await c) except Exception as e: r = (False, e)] *)
Definition try_await (c : M unit) : M (bool * option exn) := λ w,
  match c w with
  | (inl e, w') => (inr (false, Some e), w')
  | (inr _, w') => (inr (true, None), w')
  end.

(** An action that only leaves its mark on the trace. *)
Definition note (e : event) : M unit := λ w, (inr tt, log e w).

Definition echo (line : string) : M unit := note (Echo line).

(** ** The remote services *)

(** What one GET comes back with: no response at all, or a status and a
    body. The body of a metadata response is the ["data"] array of its JSON. *)
Inductive reply (A : Type) :=
| ConnectionFailed
| Reply (status : Z) (payload : A).
Arguments ConnectionFailed {A}.
Arguments Reply {A} status payload.

Record response (A : Type) := Response { status : Z; payload : A }.
Arguments Response {A} status payload.
Arguments status {A} r.
Arguments payload {A} r.

(** The two endpoints. The first argument is the number of requests the run
    has already sent to that endpoint, so a service may answer the same
    query differently the second time. *)
Record network := Network {
  develop : nat → list Z → reply (list asset_data);
  assetdelivery : nat → Z → reply (list byte)
}.

(** [response.raise_for_status()]: raises when the status is 400 or more. *)
Definition raise_for_status {A} (r : response A) : M unit :=
  if decide (400 ≤ status r)%Z then raise (ClientResponseError (status r)) else ret tt.

(** ** Python's [range] and slices *)

(** [len(range(start, stop, step))] for a positive [step]. *)
Definition range_len (start stop step : nat) : nat :=
  (stop - start + step - 1) / step.

(** [range(start, stop, step)] for a positive [step]. *)
Definition py_range (start stop step : nat) : list nat :=
  (λ k, start + k * step) <$> seq 0 (range_len start stop step).

(** [l[i:j]] for [0 <= i <= j]: out-of-range bounds are clamped. *)
Definition py_slice {A} (l : list A) (i j : nat) : list A :=
  take (j - i) (drop i l).

(** [enumerate(l)] *)
Definition enumerate {A} (l : list A) : list (nat * A) :=
  zip (seq 0 (length l)) l.

(** ** The program *)

(** [asset_type_to_extension], lines 13-20. *)
Definition asset_type_to_extension : gmap Z string :=
  <[1%Z := "png"]> (<[3%Z := "mp3"]> (<[5%Z := "lua"]> (<[7%Z := "txt"]>
  (<[9%Z := "rbxl"]> (<[10%Z := "rbxm"]> ∅))))).

(** [d.get(k, dflt)] *)
Definition get_default {K V} `{Countable K} (d : gmap K V) (k : K) (dflt : V) : V :=
  default dflt (d !! k).

(** An open file object. *)
Record file := File { file_path : Path; file_mode : open_mode }.

Section Program.

(** The replies of the two services; whether a path can be opened for
    writing; and [json.dumps(v, indent=2)] as a function of [v]. *)
Context (net : network).
Context (writable : Path → bool).
Context (json_dumps : pyval → string).

(** *** Files ([aiofiles]) *)

(** [aiofiles.open(p, mode)] entered: the file is created or truncated. *)
Definition aiofiles_open (p : Path) (mode : open_mode) : M file := λ w,
  if writable p
  then (inr (File p mode),
        log (FileOpen p mode) (set_fs (<[p := empty_data mode]> (fs w)) w))
  else (inl (OSError p), w).

(** The coroutine [file.write(d)]. It appends when awaited. *)
Definition file_write (f : file) (d : data) : M unit := λ w,
  match fs w !! file_path f, d, file_mode f with
  | Some (Bytes old), Bytes new, ModeWB =>
      (inr tt, log (FileWrite (file_path f) d)
                 (set_fs (<[file_path f := Bytes (old ++ new)]> (fs w)) w))
  | Some (Str old), Str new, ModeW =>
      (inr tt, log (FileWrite (file_path f) d)
                 (set_fs (<[file_path f := Str (old +:+ new)]> (fs w)) w))
  | _, _, _ => (inl TypeError, w)
  end.

Definition file_close (f : file) : M unit := λ w,
  (inr tt, log (FileClose (file_path f)) w).

(** [async with aiofiles.open(p, mode) as file: body]: the file is closed
    whether or not the body raises. *)
Definition async_with_open {A} (p : Path) (mode : open_mode)
    (body : file → M A) : M A := λ w,
  match aiofiles_open p mode w with
  | (inl e, w1) => (inl e, w1)
  | (inr f, w1) =>
      let '(r, w2) := body f w1 in
      let '(_, w3) := file_close f w2 in
      (r, w3)
  end.

(** *** HTTP ([aiohttp]) *)

(** [await session.get(url=".../v1/assets", params={"assetIds": id_chunk})] *)
Definition session_get_develop (id_chunk : list Z)
    : M (response (list asset_data)) := λ w,
  let w' := {| fs := fs w; trace := trace w ++ [GetAssets id_chunk];
               develop_sent := S (develop_sent w);
               delivery_sent := delivery_sent w |} in
  match develop net (develop_sent w) id_chunk with
  | ConnectionFailed => (inl ClientConnectionError, w')
  | Reply s b => (inr (Response s b), w')
  end.

(** [await session.get(url=".../v1/asset", params={"id": asset_id},
    allow_redirects=True)] *)
Definition session_get_delivery (asset_id : Z)
    : M (response (list byte)) := λ w,
  let w' := {| fs := fs w; trace := trace w ++ [GetAsset asset_id];
               develop_sent := develop_sent w;
               delivery_sent := S (delivery_sent w) |} in
  match assetdelivery net (delivery_sent w) asset_id with
  | ConnectionFailed => (inl ClientConnectionError, w')
  | Reply s b => (inr (Response s b), w')
  end.

(** *** [get_asset_information], lines 23-39 *)

Definition chunk_size : nat := 50.

(** Line 25. *)
Definition id_chunks (asset_ids : list Z) : list (list Z) :=
  (λ i, py_slice asset_ids i (i + chunk_size))
    <$> py_range 0 (length asset_ids) chunk_size.

(** Lines 36-37: [for asset_data in ...: results[asset_data["id"]] = asset_data]. *)
Definition merge_data (results : gmap Z asset_data) (body : list asset_data)
    : gmap Z asset_data :=
  foldl (λ r asset_data, <[ad_id asset_data := asset_data]> r) results body.

(** Lines 28-37: the loop over [id_chunks]. *)
Fixpoint fetch_chunks (chunks : list (list Z)) (results : gmap Z asset_data)
    : M (gmap Z asset_data) :=
  match chunks with
  | [] => ret results
  | id_chunk :: rest =>
      develop_response <- session_get_develop id_chunk ;;
      raise_for_status develop_response ;;;
      fetch_chunks rest (merge_data results (payload develop_response))
  end.

Definition get_asset_information (asset_ids : list Z) : M (gmap Z asset_data) :=
  fetch_chunks (id_chunks asset_ids) ∅.

(** *** [get_asset_contents], lines 42-52 *)

Definition get_asset_contents (asset_id : Z) : M (list byte) :=
  response <- session_get_delivery asset_id ;;
  raise_for_status response ;;;
  ret (payload response).

(** *** [download_asset_to_path], lines 55-59

    Line 59 calls [file.write(content)] without [await]: the coroutine
    object is built and dropped, so its body never runs. *)
Definition download_asset_to_path (asset_id : Z) (asset_path : Path) : M unit :=
  content <- get_asset_contents asset_id ;;
  async_with_open asset_path ModeWB (λ file,
    let _never_awaited := file_write file (Bytes content) in
    ret tt).

(** *** [main], lines 62-126 *)

(** Line 83: [asset_type_to_extension.get(type_id, "bin")]. *)
Definition extension (type_id : Z) : string :=
  get_default asset_type_to_extension type_id "bin".

Definition asset_extension (asset_info : asset_data) : string :=
  extension (ad_typeId asset_info).

(** Line 84: [f"{asset_id}.{asset_extension}"]. *)
Definition asset_filename (asset_id : Z) (asset_info : asset_data) : string :=
  pretty asset_id +:+ "." +:+ asset_extension asset_info.

(** Lines 86-91: the dict literal appended to [result_metadata]. *)
Definition new_record (asset_id : Z) (asset_info : asset_data) : pydict :=
  [ ("name", PyStr (ad_name asset_info));
    ("id", PyInt (ad_id asset_info));
    ("filename", PyStr (asset_filename asset_id asset_info));
    ("type_id", PyInt (ad_typeId asset_info)) ].

(** Lines 81-97: the loop that builds [result_metadata] and [coroutines].
    Nothing is awaited in it; each coroutine object is built, not run. *)
Fixpoint launch (path : Path) (asset_infos : gmap Z asset_data)
    (asset_ids : list Z) (result_metadata : list pydict)
    (coroutines : list (M unit))
    : M (list pydict * list (M unit)) :=
  match asset_ids with
  | [] => ret (result_metadata, coroutines)
  | asset_id :: rest =>
      match asset_infos !! asset_id with
      | None => raise (KeyError asset_id)
      | Some asset_info =>
          let asset_path := path_join path (asset_filename asset_id asset_info) in
          let record := new_record asset_id asset_info in
          note (RecordAppend record) ;;;
          launch path asset_infos rest
            (result_metadata ++ [record])
            (coroutines ++ [download_asset_to_path asset_id asset_path])
      end
  end.

(** Lines 105-109: each coroutine is awaited in turn, inside [try]; the
    progress bar advances when the loop asks for the next item. *)
Fixpoint await_all (coroutines : list (M unit))
    (results : list (bool * option exn)) : M (list (bool * option exn)) :=
  match coroutines with
  | [] => ret results
  | coroutine :: rest =>
      r <- try_await coroutine ;;
      note Progress ;;;
      await_all rest (results ++ [r])
  end.

(** Lines 111-119: the loop over [enumerate(results)]. *)
Fixpoint tally (enumerated : list (nat * (bool * option exn)))
    (success_count fail_count : nat) (result_metadata : list pydict)
    : M (nat * nat * list pydict) :=
  match enumerated with
  | [] => ret (success_count, fail_count, result_metadata)
  | (i, result) :: rest =>
      let success_count := if result.1 then S success_count else success_count in
      let fail_count := if result.1 then fail_count else S fail_count in
      match result_metadata !! i with
      | None => raise IndexError
      | Some record =>
          note (RecordSet i "success" (PyBool result.1)) ;;;
          tally rest success_count fail_count
            (<[i := dict_set record "success" (PyBool result.1)]> result_metadata)
      end
  end.

(** Line 121. *)
Definition summary_line (n success_count fail_count : nat) : string :=
  pretty n +:+ " assets downloaded. " +:+ pretty success_count
    +:+ " succeeded, " +:+ pretty fail_count +:+ " failed.".

(** Lines 124-126: the document handed to [json.dumps]. *)
Definition manifest (result_metadata : list pydict) : pyval :=
  PyDict [("assets", PyList (PyDict <$> result_metadata))].

Definition manifest_path (path : Path) : Path := path_join path "assets.json".

Definition main (path : Path) (asset_ids : list Z) : M unit :=
  echo "Fetching asset information..." ;;;
  asset_infos <- get_asset_information asset_ids ;;
  launched <- launch path asset_infos asset_ids [] [] ;;
  results <- await_all launched.2 [] ;;
  tallied <- tally (enumerate results) 0 0 launched.1 ;;
  echo (summary_line (length results) tallied.1.1 tallied.1.2) ;;;
  async_with_open (manifest_path path) ModeW (λ file,
    file_write file (Str (json_dumps (manifest tallied.2)))).

End Program.

Arguments aiofiles_open writable p mode w : simpl never.

(** ** What the loops compute

    Closed forms of the loops of the program, and the vocabulary of the
    statements below. Each closed form is proved equal to the loop it
    describes before it is used. *)

(** The world with more actions on its trace. *)
Definition log_all (es : list event) (w : world) : world :=
  {| fs := fs w; trace := trace w ++ es;
     develop_sent := develop_sent w; delivery_sent := delivery_sent w |}.

(** A reply on which [raise_for_status], or the GET itself, raises. *)
Definition failed_reply {A} (r : reply A) : bool :=
  match r with
  | ConnectionFailed => true
  | Reply s _ => bool_decide (400 ≤ s)%Z
  end.

Definition reply_exn {A} (r : reply A) : exn :=
  match r with
  | ConnectionFailed => ClientConnectionError
  | Reply s _ => ClientResponseError s
  end.


(** What awaiting a coroutine with this outcome gives its awaiter. *)
Definition outcome_result (o : bool * option exn) : exn + unit :=
  match o.2 with Some e => inl e | None => inr tt end.

(** [record["success"] = result[0]] *)
Definition set_success (record : pydict) (result : bool * option exn) : pydict :=
  dict_set record "success" (PyBool result.1).

Definition success_event (ir : nat * (bool * option exn)) : event :=
  RecordSet ir.1 "success" (PyBool ir.2.1).

Definition count_flag (b : bool) (results : list (bool * option exn)) : nat :=
  length (filter (λ r, r.1 = b) results).

Definition summary_of (results : list (bool * option exn)) : string :=
  summary_line (length results) (count_flag true results) (count_flag false results).

(** The metadata [launch] reads for [asset_id]; the default is never used
    where [launch] returns. *)
Definition info_at (asset_infos : gmap Z asset_data) (asset_id : Z) : asset_data :=
  default (AssetData asset_id "" 0) (asset_infos !! asset_id).

Definition path_at (path : Path) (asset_infos : gmap Z asset_data)
    (asset_id : Z) : Path :=
  path_join path (asset_filename asset_id (info_at asset_infos asset_id)).

Definition record_at (asset_infos : gmap Z asset_data) (asset_id : Z) : pydict :=
  new_record asset_id (info_at asset_infos asset_id).

(** A download: the asset id and the path it is written to. *)
Definition jobs_of (path : Path) (asset_infos : gmap Z asset_data)
    (asset_ids : list Z) : list (Z * Path) :=
  (λ asset_id, (asset_id, path_at path asset_infos asset_id)) <$> asset_ids.

(** The first requested id with no metadata, if any, and the ids before it. *)
Fixpoint first_missing (asset_infos : gmap Z asset_data) (asset_ids : list Z)
    : option Z :=
  match asset_ids with
  | [] => None
  | asset_id :: rest =>
      match asset_infos !! asset_id with
      | None => Some asset_id
      | Some _ => first_missing asset_infos rest
      end
  end.

Fixpoint present_prefix (asset_infos : gmap Z asset_data) (asset_ids : list Z)
    : list Z :=
  match asset_ids with
  | [] => []
  | asset_id :: rest =>
      match asset_infos !! asset_id with
      | None => []
      | Some _ => asset_id :: present_prefix asset_infos rest
      end
  end.

Definition launch_world (asset_infos : gmap Z asset_data) (asset_ids : list Z)
    (w : world) : world :=
  log_all (RecordAppend <$> (record_at asset_infos
                               <$> present_prefix asset_infos asset_ids)) w.


(** *** Reading a trace *)

(** Downloads in flight along a trace: one more at each content query, one
    fewer each time the await loop moves past a coroutine. *)
Definition in_flight_step (n : nat) (e : event) : nat :=
  match e with
  | GetAsset _ => S n
  | Progress => pred n
  | _ => n
  end.

Definition in_flight_from (n : nat) (t : list event) : nat :=
  foldl in_flight_step n t.

Definition in_flight (t : list event) : nat := in_flight_from 0 t.

Fixpoint peak_from (n : nat) (t : list event) : nat :=
  match t with
  | [] => n
  | e :: t' => n `max` peak_from (in_flight_step n e) t'
  end.

(** The largest number of downloads in flight at any point of [t]. *)
Definition peak_in_flight (t : list event) : nat := peak_from 0 t.

(** At some point of [t], [n] downloads are in flight at once. *)
Definition in_flight_together (n : nat) (t : list event) : Prop :=
  ∃ before after, t = before ++ after ∧ in_flight before = n.

(** Actions that neither start nor resolve a download. *)
Definition quiet (e : event) : Prop :=
  match e with
  | GetAsset _ | Progress => False
  | _ => True
  end.

(** Actions of the run before any download: console output, metadata
    queries, and records appended to [result_metadata]. *)
Definition before_downloads (e : event) : Prop :=
  match e with
  | Echo _ | GetAssets _ | RecordAppend _ => True
  | _ => False
  end.

(** The ids of the content queries of a trace, the chunks of its metadata
    queries, and its mutations of [result_metadata], each in order. *)
Definition content_queries (t : list event) : list Z :=
  omap (λ e, match e with GetAsset id => Some id | _ => None end) t.

Definition metadata_queries (t : list event) : list (list Z) :=
  omap (λ e, match e with GetAssets ids => Some ids | _ => None end) t.

Definition mutations (t : list event) : list event :=
  omap (λ e, match e with
             | RecordAppend _ | RecordSet _ _ _ => Some e
             | _ => None
             end) t.

Section ClosedForms.
Context (net : network).
Context (writable : Path → bool).

(** The result of [fetch_chunks] when [n] queries were sent before. *)
Fixpoint fetch_result (n : nat) (chunks : list (list Z))
    (results : gmap Z asset_data) : exn + gmap Z asset_data :=
  match chunks with
  | [] => inr results
  | id_chunk :: rest =>
      match develop net n id_chunk with
      | ConnectionFailed => inl ClientConnectionError
      | Reply s b =>
          if decide (400 ≤ s)%Z then inl (ClientResponseError s)
          else fetch_result (S n) rest (merge_data results b)
      end
  end.

(** How many of [chunks] are queried: all of them, or up to the first
    failed reply. *)
Fixpoint fetch_sent (n : nat) (chunks : list (list Z)) : nat :=
  match chunks with
  | [] => 0
  | id_chunk :: rest =>
      if failed_reply (develop net n id_chunk) then 1
      else S (fetch_sent (S n) rest)
  end.

(** The ["data"] arrays of the replies to [chunks], one after the other. *)
Fixpoint fetched_data (n : nat) (chunks : list (list Z)) : list asset_data :=
  match chunks with
  | [] => []
  | id_chunk :: rest =>
      match develop net n id_chunk with
      | ConnectionFailed => []
      | Reply _ b => b ++ fetched_data (S n) rest
      end
  end.

Definition fetch_world (chunks : list (list Z)) (w : world) : world :=
  {| fs := fs w;
     trace := trace w ++ (GetAssets <$> take (fetch_sent (develop_sent w) chunks) chunks);
     develop_sent := develop_sent w + fetch_sent (develop_sent w) chunks;
     delivery_sent := delivery_sent w |}.

(** Whether the download of [asset_id] to [p], as the [n]-th content
    query of the run, completes without raising. *)
Definition download_ok (n : nat) (asset_id : Z) (p : Path) : bool :=
  negb (failed_reply (assetdelivery net n asset_id)) && writable p.

Definition download_exn (n : nat) (asset_id : Z) (p : Path) : exn :=
  if failed_reply (assetdelivery net n asset_id)
  then reply_exn (assetdelivery net n asset_id)
  else OSError p.

Definition download_outcome (n : nat) (job : Z * Path) : bool * option exn :=
  if download_ok n job.1 job.2 then (true, None)
  else (false, Some (download_exn n job.1 job.2)).

Definition download_events (n : nat) (job : Z * Path) : list event :=
  GetAsset job.1 ::
  (if download_ok n job.1 job.2
   then [FileOpen job.2 ModeWB; FileClose job.2] else []).

Definition download_fs (n : nat) (job : Z * Path) (f : gmap Path data)
    : gmap Path data :=
  if download_ok n job.1 job.2 then <[job.2 := Bytes []]> f else f.

Definition download_world (job : Z * Path) (w : world) : world :=
  {| fs := download_fs (delivery_sent w) job (fs w);
     trace := trace w ++ download_events (delivery_sent w) job;
     develop_sent := develop_sent w;
     delivery_sent := S (delivery_sent w) |}.

(** The loop of [await_all] over the downloads [jobs], the first of which
    is the [n]-th content query. *)
Fixpoint await_outcomes (n : nat) (jobs : list (Z * Path))
    : list (bool * option exn) :=
  match jobs with
  | [] => []
  | job :: rest => download_outcome n job :: await_outcomes (S n) rest
  end.

Fixpoint await_events (n : nat) (jobs : list (Z * Path)) : list event :=
  match jobs with
  | [] => []
  | job :: rest => download_events n job ++ Progress :: await_events (S n) rest
  end.

Fixpoint await_fs (n : nat) (jobs : list (Z * Path)) (f : gmap Path data)
    : gmap Path data :=
  match jobs with
  | [] => f
  | job :: rest => await_fs (S n) rest (download_fs n job f)
  end.

Definition await_world (jobs : list (Z * Path)) (w : world) : world :=
  {| fs := await_fs (delivery_sent w) jobs (fs w);
     trace := trace w ++ await_events (delivery_sent w) jobs;
     develop_sent := develop_sent w;
     delivery_sent := delivery_sent w + length jobs |}.

Definition coroutines_of (jobs : list (Z * Path)) : list (M unit) :=
  (λ job, download_asset_to_path net writable job.1 job.2) <$> jobs.

(** The world of [main] once the metadata loop is over. *)
Definition metadata_world (asset_ids : list Z) (fs0 : gmap Path data) : world :=
  fetch_world (id_chunks asset_ids)
    (log (Echo "Fetching asset information...") (init_world fs0)).

(** The results [main] collects and the records it serialises, when the
    metadata is [asset_infos] and holds every requested id. *)
Definition final_results (path : Path) (asset_infos : gmap Z asset_data)
    (asset_ids : list Z) : list (bool * option exn) :=
  await_outcomes 0 (jobs_of path asset_infos asset_ids).

Definition final_records (path : Path) (asset_infos : gmap Z asset_data)
    (asset_ids : list Z) : list pydict :=
  zip_with set_success (record_at asset_infos <$> asset_ids)
    (final_results path asset_infos asset_ids).

(** The world of [main] when the summary line has been printed. *)
Definition tallied_world (path : Path) (asset_infos : gmap Z asset_data)
    (asset_ids : list Z) (fs0 : gmap Path data) : world :=
  log (Echo (summary_of (final_results path asset_infos asset_ids)))
    (log_all (success_event <$> enumerate (final_results path asset_infos asset_ids))
       (await_world (jobs_of path asset_infos asset_ids)
          (launch_world asset_infos asset_ids (metadata_world asset_ids fs0)))).

End ClosedForms.

(** ** Example environments

    Used to run the program on concrete inputs. *)

Definition quote : string := String (Ascii.ascii_of_nat 34) EmptyString.

(** A compact serialiser standing for [json.dumps] in the example runs (no
    indentation, no escaping). *)
Fixpoint ex_dumps (v : pyval) : string :=
  match v with
  | PyStr s => quote +:+ s +:+ quote
  | PyInt z => pretty z
  | PyBool b => if b then "true" else "false"
  | PyList l =>
      "[" +:+ (fix items (l : list pyval) : string :=
                 match l with
                 | [] => ""
                 | x :: l' =>
                     ex_dumps x +:+
                     match l' with [] => "" | _ => ", " +:+ items l' end
                 end) l +:+ "]"
  | PyDict d =>
      "{" +:+ (fix items (d : list (string * pyval)) : string :=
                 match d with
                 | [] => ""
                 | (k, x) :: d' =>
                     quote +:+ k +:+ quote +:+ ": " +:+ ex_dumps x +:+
                     match d' with [] => "" | _ => ", " +:+ items d' end
                 end) d +:+ "}"
  end.

Definition ex_writable (p : Path) : bool := true.

(** Asset 1 is an image, asset 3 a sound; every other id has type 999. *)
Definition ex_type (asset_id : Z) : Z :=
  if decide (asset_id = 1%Z) then 1%Z
  else if decide (asset_id = 3%Z) then 3%Z else 999%Z.

Definition ex_data (asset_id : Z) : asset_data :=
  AssetData asset_id ("asset" +:+ pretty asset_id) (ex_type asset_id).

Definition ex_content : list byte := [x89; x50; x4e; x47].

(** Metadata for every id asked; content for every id but 2, which is 404. *)
Definition ex_net : network :=
  {| develop := λ _ ids, Reply 200 (ex_data <$> ids);
     assetdelivery := λ _ asset_id,
       if decide (asset_id = 2%Z) then Reply 404 [] else Reply 200 ex_content |}.

(** The second metadata query is answered 500. *)
Definition ex_net_down : network :=
  {| develop := λ n ids,
       if decide (n = 1) then Reply 500 [] else Reply 200 (ex_data <$> ids);
     assetdelivery := assetdelivery ex_net |}.

(** The metadata service leaves id 5 out of its answers. *)
Definition ex_net_omit : network :=
  {| develop := λ _ ids,
       Reply 200 (ex_data <$> filter (λ asset_id, asset_id ≠ 5%Z) ids);
     assetdelivery := assetdelivery ex_net |}.

Definition ex_path : Path := ["out"].

(** ** The command [root], lines 129-150

    The strings of the command line are sequences of code points below 256,
    one [ascii] each. [root] is modelled from the call of the function on:
    what [typer] does before it (reading the options, resolving [path]) is
    not part of it. The [assert] statements are live (no [-O]). *)

Definition comma : Ascii.ascii := Ascii.ascii_of_nat 44.
Definition plus_sign : Ascii.ascii := Ascii.ascii_of_nat 43.
Definition minus_sign : Ascii.ascii := Ascii.ascii_of_nat 45.
Definition underscore : Ascii.ascii := Ascii.ascii_of_nat 95.

(** [c.isspace()], which decides what [str.strip()] removes: tab to carriage
    return, the four separators 28-31, the space, and of the code points
    above 127 the next-line character 133 and the no-break space 160. *)
Definition str_space (c : Ascii.ascii) : bool :=
  let n := Ascii.nat_of_ascii c in
  ((9 <=? n) && (n <=? 13)) || ((28 <=? n) && (n <=? 32))
  || (n =? 133) || (n =? 160).

(** The whitespace [int()] skips around a literal: the same but for the
    separators 28-31. *)
Definition int_space (c : Ascii.ascii) : bool :=
  let n := Ascii.nat_of_ascii c in
  ((9 <=? n) && (n <=? 13)) || (n =? 32) || (n =? 133) || (n =? 160).

Fixpoint lstrip (space : Ascii.ascii → bool) (s : string) : string :=
  match s with
  | EmptyString => EmptyString
  | String c s' => if space c then lstrip space s' else s
  end.

Fixpoint rstrip (space : Ascii.ascii → bool) (s : string) : string :=
  match s with
  | EmptyString => EmptyString
  | String c s' =>
      match rstrip space s' with
      | EmptyString => if space c then EmptyString else String c EmptyString
      | kept => String c kept
      end
  end.

(** [s.strip()] *)
Definition py_strip (s : string) : string := rstrip str_space (lstrip str_space s).

(** [s.split(sep)] for a one-character separator: never an empty list. *)
Fixpoint py_split (sep : Ascii.ascii) (s : string) : list string :=
  match s with
  | EmptyString => [EmptyString]
  | String c s' =>
      if decide (c = sep) then EmptyString :: py_split sep s'
      else match py_split sep s' with
           | first :: others => String c first :: others
           | [] => [String c EmptyString]
           end
  end.

(** The value of a decimal digit. *)
Definition digit_value (c : Ascii.ascii) : option Z :=
  let n := Ascii.nat_of_ascii c in
  if (48 <=? n) && (n <=? 57) then Some (Z.of_nat (n - 48)) else None.

(** The digits of an [int()] literal, read left to right. The state is:
    whether a digit must come next (at the start and after an underscore: no
    underscore may follow, and the literal may not end there), the value so
    far, and the number of digits read. *)
Fixpoint scan_digits (s : string) (st : bool * Z * nat) : option (bool * Z * nat) :=
  match s with
  | EmptyString => Some st
  | String c s' =>
      let '(no_underscore, value, digits) := st in
      if decide (c = underscore)
      then if no_underscore then None else scan_digits s' (true, value, digits)
      else match digit_value c with
           | Some d => scan_digits s' (false, (10 * value + d)%Z, S digits)
           | None => None
           end
  end.

(** The exceptions of [root]: its own, and those [main] raises. *)
Inductive cli_exn :=
| AssertionError (msg : string)
| ValueError (literal : string)
| Raised (e : exn).

Section CommandLine.

(** Besides the parameters of [main]: whether a path exists, and the limit
    on the digits of an [int()] literal ([sys.get_int_max_str_digits()],
    4300 unless changed; 0 for no limit, as in the versions of Python that
    have none). *)
Context (net : network).
Context (writable : Path → bool).
Context (json_dumps : pyval → string).
Context (path_exists : Path → bool).
Context (max_str_digits : nat).

(** The literal has more digits than [int()] converts. The limit is only
    looked at above 640 digits. *)
Definition too_many_digits (digits : nat) : bool :=
  (640 <? digits) && (0 <? max_str_digits) && (max_str_digits <? digits).

(** [int(s)] for a string [s]: whitespace around, an optional sign, then
    digits, with single underscores allowed between digits. [None] is
    [ValueError]. *)
Definition py_int (s : string) : option Z :=
  let literal := rstrip int_space (lstrip int_space s) in
  let '(negative, body) :=
    match literal with
    | String c body =>
        if decide (c = plus_sign) then (false, body)
        else if decide (c = minus_sign) then (true, body)
        else (false, literal)
    | EmptyString => (false, literal)
    end in
  match scan_digits body (true, 0%Z, 0) with
  | Some (false, value, digits) =>
      if too_many_digits digits then None
      else Some (if negative then (- value)%Z else value)
  | _ => None
  end.

(** Line 143: [[int(x.strip()) for x in items]]. The first item that is not
    an integer literal raises. *)
Fixpoint int_each (items : list string) : string + list Z :=
  match items with
  | [] => inr []
  | x :: rest =>
      match py_int (py_strip x) with
      | None => inl (py_strip x)
      | Some n =>
          match int_each rest with
          | inl literal => inl literal
          | inr ns => inr (n :: ns)
          end
      end
  end.

(** [root], lines 141-150. The token only goes into the cookies of the
    session, which are part of what the services answer. *)
Definition root (path : Path) (asset_ids : string) (token : option string)
    : world → (cli_exn + unit) * world := λ w,
  if negb (path_exists path)
  then (inl (AssertionError "Path does not exist."), w)
  else
    match int_each (py_split comma asset_ids) with
    | inl literal => (inl (ValueError literal), w)
    | inr asset_ids =>
        if decide (length asset_ids = 0)
        then (inl (AssertionError "No asset IDs specified."), w)
        else
          match main net writable json_dumps path asset_ids w with
          | (inl e, w') => (inl (Raised e), w')
          | (inr _, w') => (inr tt, w')
          end
    end.

End CommandLine.

(** [sep.join(items)] *)
Fixpoint py_join (sep : string) (items : list string) : string :=
  match items with
  | [] => EmptyString
  | [x] => x
  | x :: rest => x +:+ sep +:+ py_join sep rest
  end.

(** Every character of the string satisfies [P]. *)
Fixpoint string_forall (P : Ascii.ascii → Prop) (s : string) : Prop :=
  match s with
  | EmptyString => True
  | String c s' => P c ∧ string_forall P s'
  end.

(** A character of the decimal form of an integer. *)
Definition int_char (c : Ascii.ascii) : Prop :=
  c = minus_sign ∨ is_Some (digit_value c).

(** One item of a well-formed id list: the decimal form of an id, with
    whitespace around it. *)
Definition padded_id (item : string * Z * string) : string :=
  item.1.1 +:+ pretty item.1.2 +:+ item.2.

(** * Proofs *)

(** ** Chunking *)

Section Chunks.
Context {A : Type}.
Implicit Types l : list A.

Lemma concat_slices (c n : nat) l :
  0 < c → length l ≤ n * c →
  concat ((λ k, take c (drop (k * c) l)) <$> seq 0 n) = l.
Proof.
  intros Hc. revert l. induction n as [|n IH]; intros l Hl.
  - simpl in *. by destruct l; [|simpl in Hl; lia].
  - rewrite <- cons_seq, fmap_cons, <- fmap_S_seq, <- list_fmap_compose.
    simpl concat. rewrite drop_0.
    rewrite <- (take_drop c l) at 2. f_equal.
    rewrite <- (IH (drop c l)) by (rewrite length_drop; lia).
    f_equal. apply list_fmap_ext. intros _ k _. simpl.
    by rewrite drop_drop.
Qed.

Lemma range_len_covers (c len : nat) :
  0 < c →
  len ≤ range_len 0 len c * c ∧ ∀ k, k < range_len 0 len c → k * c < len.
Proof.
  intros Hc. unfold range_len. rewrite Nat.sub_0_r.
  pose proof (Nat.div_mod_eq (len + c - 1) c) as E.
  pose proof (Nat.mod_upper_bound (len + c - 1) c ltac:(lia)) as U.
  split; [nia|]. intros k Hk. nia.
Qed.

End Chunks.

Lemma id_chunks_unfold (asset_ids : list Z) :
  id_chunks asset_ids =
  (λ k, take chunk_size (drop (k * chunk_size) asset_ids))
    <$> seq 0 (range_len 0 (length asset_ids) chunk_size).
Proof.
  unfold id_chunks, py_range, py_slice. rewrite <- list_fmap_compose.
  apply list_fmap_ext. intros _ k _. simpl. f_equal. lia.
Qed.

Lemma concat_id_chunks (asset_ids : list Z) :
  concat (id_chunks asset_ids) = asset_ids.
Proof.
  rewrite id_chunks_unfold. apply concat_slices; [unfold chunk_size; lia|].
  apply range_len_covers. unfold chunk_size; lia.
Qed.

Lemma id_chunks_lookup (asset_ids : list Z) (k : nat) (id_chunk : list Z) :
  id_chunks asset_ids !! k = Some id_chunk →
  id_chunk = take chunk_size (drop (k * chunk_size) asset_ids)
  ∧ k * chunk_size < length asset_ids.
Proof.
  rewrite id_chunks_unfold, list_lookup_fmap.
  destruct (seq _ _ !! k) as [k'|] eqn:E; [|done].
  apply lookup_seq in E as [-> Hk]. simpl. intros [= <-]. split; [done|].
  apply range_len_covers; [unfold chunk_size; lia | done].
Qed.

Lemma id_chunks_sizes (asset_ids : list Z) :
  Forall (λ id_chunk, 0 < length id_chunk ≤ chunk_size) (id_chunks asset_ids).
Proof.
  apply Forall_lookup. intros k id_chunk Hk.
  apply id_chunks_lookup in Hk as [-> Hk].
  rewrite length_take, length_drop. unfold chunk_size in *. lia.
Qed.

Lemma id_chunks_120 (asset_ids : list Z) :
  length asset_ids = 120 → length <$> id_chunks asset_ids = [50; 50; 20].
Proof.
  intros Hlen. rewrite id_chunks_unfold, Hlen. vm_compute seq.
  simpl fmap. rewrite !length_take, !length_drop, Hlen. reflexivity.
Qed.

(** ** Worlds and traces *)

Lemma world_eta (w : world) :
  {| fs := fs w; trace := trace w;
     develop_sent := develop_sent w; delivery_sent := delivery_sent w |} = w.
Proof. by destruct w. Qed.

Lemma log_all_nil w : log_all [] w = w.
Proof. unfold log_all. by rewrite app_nil_r, world_eta. Qed.

Lemma log_log_all e es w : log_all es (log e w) = log_all (e :: es) w.
Proof. unfold log_all, log. simpl. by rewrite <- app_assoc. Qed.

Lemma in_flight_from_app n t1 t2 :
  in_flight_from n (t1 ++ t2) = in_flight_from (in_flight_from n t1) t2.
Proof. apply foldl_app. Qed.

Lemma peak_from_app n t1 t2 :
  peak_from n (t1 ++ t2) = peak_from n t1 `max` peak_from (in_flight_from n t1) t2.
Proof.
  revert n. induction t1 as [|e t1 IH]; intros n; simpl.
  - destruct t2; simpl; lia.
  - rewrite IH. unfold in_flight_from. simpl. lia.
Qed.

Lemma peak_from_ge n t : n ≤ peak_from n t.
Proof. destruct t; simpl; lia. Qed.

Lemma in_flight_le_peak n t1 t2 :
  in_flight_from n t1 ≤ peak_from n (t1 ++ t2).
Proof.
  rewrite peak_from_app.
  pose proof (peak_from_ge (in_flight_from n t1) t2). lia.
Qed.

Lemma quiet_in_flight n t : Forall quiet t → in_flight_from n t = n.
Proof.
  induction 1 as [|e t He _ IH]; [done|].
  unfold in_flight_from in *. simpl. by destruct e.
Qed.

Lemma quiet_peak n t : Forall quiet t → peak_from n t = n.
Proof.
  induction 1 as [|e t He _ IH]; [done|].
  simpl. destruct e; simpl in *; try done; rewrite IH; lia.
Qed.

Lemma quiet_content_queries t : Forall quiet t → content_queries t = [].
Proof.
  induction 1 as [|e t He _ IH]; [done|].
  unfold content_queries in *. simpl. by destruct e.
Qed.

Lemma content_queries_app t1 t2 :
  content_queries (t1 ++ t2) = content_queries t1 ++ content_queries t2.
Proof. apply omap_app. Qed.

Lemma mutations_app t1 t2 : mutations (t1 ++ t2) = mutations t1 ++ mutations t2.
Proof. apply omap_app. Qed.

Lemma before_downloads_quiet t : Forall before_downloads t → Forall quiet t.
Proof. intros H. eapply Forall_impl; [done|]. by intros []. Qed.

Lemma Forall_fmap_GetAssets (P : event → Prop) (chunks : list (list Z)) :
  (∀ c, P (GetAssets c)) → Forall P (GetAssets <$> chunks).
Proof. intros H. apply Forall_fmap, Forall_forall. intros ? _. apply H. Qed.

Lemma Forall_fmap_RecordAppend (P : event → Prop) (records : list pydict) :
  (∀ r, P (RecordAppend r)) → Forall P (RecordAppend <$> records).
Proof. intros H. apply Forall_fmap, Forall_forall. intros ? _. apply H. Qed.

Lemma Forall_fmap_success_event (P : event → Prop) l :
  (∀ i k v, P (RecordSet i k v)) → Forall P (success_event <$> l).
Proof. intros H. apply Forall_fmap, Forall_forall. intros ? _. apply H. Qed.

Lemma prelude_quiet line (chunks : list (list Z)) (records : list pydict) :
  Forall quiet (Echo line :: (GetAssets <$> chunks) ++ (RecordAppend <$> records)).
Proof.
  apply Forall_cons. split; [done|]. apply Forall_app. split.
  - by apply Forall_fmap_GetAssets.
  - by apply Forall_fmap_RecordAppend.
Qed.

(** ** The metadata fetcher *)

Section Fetch.
Context (net : network).

Lemma fetch_chunks_closed chunks results w :
  fetch_chunks net chunks results w
  = (fetch_result net (develop_sent w) chunks results, fetch_world net chunks w).
Proof.
  revert results w. induction chunks as [|id_chunk rest IH]; intros results w.
  - unfold fetch_world. simpl. rewrite app_nil_r, Nat.add_0_r, world_eta. done.
  - simpl. unfold bind at 1, session_get_develop, fetch_world.
    simpl. destruct (develop net (develop_sent w) id_chunk) as [|s b]; simpl.
    + by rewrite Nat.add_1_r.
    + unfold bind, raise_for_status. simpl.
      case_bool_decide; destruct (decide (400 ≤ s)%Z); try lia; simpl.
      * by rewrite Nat.add_1_r.
      * rewrite IH. unfold fetch_world. simpl.
        rewrite <- app_assoc. simpl. do 2 f_equal. f_equal. lia.
Qed.

Lemma get_asset_information_closed asset_ids w :
  get_asset_information net asset_ids w
  = (fetch_result net (develop_sent w) (id_chunks asset_ids) ∅,
     fetch_world net (id_chunks asset_ids) w).
Proof. apply fetch_chunks_closed. Qed.

(** A failed reply to any chunk makes the fetch raise. *)
Lemma fetch_result_failed n chunks results k id_chunk :
  chunks !! k = Some id_chunk →
  failed_reply (develop net (n + k) id_chunk) = true →
  ∃ e, fetch_result net n chunks results = inl e.
Proof.
  revert n results k. induction chunks as [|c rest IH]; intros n results k Hk Hf.
  - done.
  - simpl. destruct k as [|k]; simpl in Hk.
    + injection Hk as ->. rewrite Nat.add_0_r in Hf.
      destruct (develop net n id_chunk) as [|s b]; simpl in Hf; [by eauto|].
      apply bool_decide_eq_true in Hf. rewrite decide_True by done. eauto.
    + destruct (develop net n c) as [|s b]; [by eauto|].
      destruct (decide _); [by eauto|].
      apply (IH (S n) _ k); [done|]. by replace (S n + k) with (n + S k) by lia.
Qed.

(** When the fetch returns, every chunk was queried and answered, and the
    mapping is the merge of the answers in order. *)
Lemma fetch_result_inr n chunks results infos :
  fetch_result net n chunks results = inr infos →
  fetch_sent net n chunks = length chunks
  ∧ infos = merge_data results (fetched_data net n chunks)
  ∧ ∀ k id_chunk, chunks !! k = Some id_chunk →
      failed_reply (develop net (n + k) id_chunk) = false.
Proof.
  revert n results. induction chunks as [|c rest IH]; intros n results H.
  - simpl in *. by injection H as <-.
  - simpl in *. destruct (develop net n c) as [|s b] eqn:E; [done|].
    destruct (decide _) as [|Hs]; [done|]. simpl.
    rewrite bool_decide_eq_false_2 by done.
    apply IH in H as (-> & -> & H). split_and!; [done| |].
    + unfold merge_data. by rewrite foldl_app.
    + intros [|k] id_chunk Hk; simpl in Hk.
      * injection Hk as <-. rewrite Nat.add_0_r, E. simpl.
        by apply bool_decide_eq_false_2.
      * replace (n + S k) with (S n + k) by lia. by apply H.
Qed.




End Fetch.

(** ** The asset writer and the await loop *)

Section Downloads.
Context (net : network).
Context (writable : Path → bool).

Lemma download_asset_to_path_closed asset_id asset_path w :
  download_asset_to_path net writable asset_id asset_path w
  = (outcome_result
       (download_outcome net writable (delivery_sent w) (asset_id, asset_path)),
     download_world net writable (asset_id, asset_path) w).
Proof.
  unfold download_asset_to_path, get_asset_contents, session_get_delivery,
    download_world, outcome_result, download_outcome, download_events, download_fs,
    download_ok, download_exn, bind at 1 2. simpl.
  destruct (assetdelivery net (delivery_sent w) asset_id) as [|s b]; simpl.
  - done.
  - unfold raise_for_status, bind. simpl.
    case_bool_decide; destruct (decide (400 ≤ s)%Z); try lia; simpl.
    + done.
    + unfold async_with_open, aiofiles_open. simpl.
      destruct (writable asset_path); simpl.
      * unfold log. simpl. by rewrite <- !app_assoc.
      * done.
Qed.

Lemma await_all_closed jobs results w :
  await_all (coroutines_of net writable jobs) results w
  = (inr (results ++ await_outcomes net writable (delivery_sent w) jobs),
     await_world net writable jobs w).
Proof.
  revert results w. induction jobs as [|[asset_id p] rest IH]; intros results w.
  - unfold await_world. simpl.
    by rewrite !app_nil_r, Nat.add_0_r, world_eta.
  - simpl. unfold bind at 1, try_await.
    rewrite download_asset_to_path_closed.
    unfold outcome_result, download_outcome.
    destruct (download_ok net writable (delivery_sent w) (asset_id, p).1
                (asset_id, p).2) eqn:E; simpl;
      unfold bind at 1, note at 1; simpl; rewrite IH;
      unfold await_world, download_world; simpl;
      rewrite <- !app_assoc; simpl; (do 2 f_equal); f_equal; lia.
Qed.

Lemma await_outcomes_length n jobs :
  length (await_outcomes net writable n jobs) = length jobs.
Proof. revert n. induction jobs; intros n; simpl; [done|]. by rewrite IHjobs. Qed.

Lemma await_outcomes_lookup n jobs i job :
  jobs !! i = Some job →
  await_outcomes net writable n jobs !! i
  = Some (download_outcome net writable (n + i) job).
Proof.
  revert n i. induction jobs as [|j rest IH]; intros n [|i] H; simpl in *; try done.
  - injection H as ->. by rewrite Nat.add_0_r.
  - rewrite (IH (S n) i H). do 2 f_equal. lia.
Qed.

(** A path keeps its content unless a download that completes targets it;
    then it holds no bytes. *)
Lemma await_fs_untouched n jobs f (p : Path) :
  (∀ i job, jobs !! i = Some job → job.2 = p →
     download_ok net writable (n + i) job.1 job.2 = false) →
  await_fs net writable n jobs f !! p = f !! p.
Proof.
  revert n f. induction jobs as [|j rest IH]; intros n f H; simpl; [done|].
  rewrite IH.
  - unfold download_fs. destruct (download_ok _ _ _ _ _) eqn:E; [|done].
    apply lookup_insert_ne. intros Hp.
    specialize (H 0 j eq_refl Hp). rewrite Nat.add_0_r in H. congruence.
  - intros i job Hi Hp. specialize (H (S i) job Hi Hp).
    by replace (S n + i) with (n + S i) by lia.
Qed.

Lemma await_fs_kept n jobs f (p : Path) :
  f !! p = Some (Bytes []) →
  await_fs net writable n jobs f !! p = Some (Bytes []).
Proof.
  revert n f. induction jobs as [|j rest IH]; intros n f Hf; simpl; [done|].
  apply IH. unfold download_fs. destruct (download_ok _ _ _ _ _); [|done].
  rewrite lookup_insert. by case_decide.
Qed.

Lemma await_fs_written n jobs f i job :
  jobs !! i = Some job →
  download_ok net writable (n + i) job.1 job.2 = true →
  await_fs net writable n jobs f !! job.2 = Some (Bytes []).
Proof.
  revert n f i. induction jobs as [|j rest IH]; intros n f i Hi Hok; [done|].
  simpl. destruct i as [|i]; simpl in Hi.
  - injection Hi as ->. rewrite Nat.add_0_r in Hok.
    apply await_fs_kept. unfold download_fs. by rewrite Hok, lookup_insert_eq.
  - apply (IH (S n) _ i); [done|]. by replace (S n + i) with (n + S i) by lia.
Qed.

(** The trace of the await loop: one download after the other. *)
Lemma download_events_peak n job t :
  peak_from 0 (download_events net writable n job ++ Progress :: t)
  = 1 `max` peak_from 0 t.
Proof.
  unfold download_events. destruct (download_ok _ _ _ _ _); simpl; lia.
Qed.

Lemma await_events_peak n jobs t :
  peak_from 0 (await_events net writable n jobs ++ t) ≤ 1 `max` peak_from 0 t.
Proof.
  revert n. induction jobs as [|job rest IH]; intros n; [simpl; lia|].
  cbn [await_events]. rewrite <- app_assoc, <- app_comm_cons.
  rewrite download_events_peak. specialize (IH (S n)). lia.
Qed.

Lemma await_events_in_flight n jobs :
  in_flight_from 0 (await_events net writable n jobs) = 0.
Proof.
  revert n. induction jobs as [|job rest IH]; intros n; [done|].
  cbn [await_events]. rewrite in_flight_from_app.
  replace (in_flight_from 0 (download_events net writable n job)) with 1
    by (unfold download_events; by destruct (download_ok _ _ _ _ _)).
  apply IH.
Qed.

Lemma await_events_content_queries n jobs :
  content_queries (await_events net writable n jobs) = jobs.*1.
Proof.
  revert n. induction jobs as [|job rest IH]; intros n; simpl; [done|].
  rewrite content_queries_app. unfold download_events.
  destruct (download_ok _ _ _ _ _); simpl;
    unfold content_queries in *; simpl; by rewrite IH.
Qed.


Lemma await_events_mutations n jobs :
  mutations (await_events net writable n jobs) = [].
Proof.
  revert n. induction jobs as [|job rest IH]; intros n; simpl; [done|].
  rewrite mutations_app. unfold download_events.
  destruct (download_ok _ _ _ _ _); simpl;
    unfold mutations in *; simpl; by rewrite IH.
Qed.

End Downloads.

(** ** The orchestrator: building records, tallying results *)

Section Orchestrator.
Context (net : network).
Context (writable : Path → bool).

Lemma launch_closed path asset_infos asset_ids result_metadata coroutines w :
  launch net writable path asset_infos asset_ids result_metadata coroutines w
  = (match first_missing asset_infos asset_ids with
     | Some asset_id => inl (KeyError asset_id)
     | None =>
         inr (result_metadata ++ (record_at asset_infos <$> asset_ids),
              coroutines
                ++ coroutines_of net writable (jobs_of path asset_infos asset_ids))
     end,
     launch_world asset_infos asset_ids w).
Proof.
  revert result_metadata coroutines w.
  induction asset_ids as [|asset_id rest IH]; intros result_metadata coroutines w.
  - unfold launch_world. simpl. by rewrite !app_nil_r, log_all_nil.
  - unfold launch_world in *. simpl.
    destruct (asset_infos !! asset_id) as [asset_info|] eqn:E.
    + unfold bind at 1, note at 1. rewrite IH, log_log_all.
      assert (info_at asset_infos asset_id = asset_info) as Hinfo
        by (unfold info_at; by rewrite E).
      f_equal.
      * destruct (first_missing asset_infos rest); [done|].
        rewrite <- !app_assoc. unfold record_at, path_at. by rewrite Hinfo.
      * simpl. unfold record_at at 2. by rewrite Hinfo.
    + by rewrite log_all_nil.
Qed.

Lemma first_missing_None asset_infos asset_ids :
  first_missing asset_infos asset_ids = None
  ↔ ∀ asset_id, asset_id ∈ asset_ids → is_Some (asset_infos !! asset_id).
Proof.
  induction asset_ids as [|a rest IH]; simpl.
  - split; [|done]. intros _ x Hx. by apply elem_of_nil in Hx.
  - destruct (asset_infos !! a) eqn:E.
    + rewrite IH. split.
      * intros H x [->|Hx]%elem_of_cons; [by rewrite E|by apply H].
      * intros H x Hx. apply H. by right.
    + split; [done|]. intros H.
      destruct (H a) as [? Hs]; [by left|congruence].
Qed.

Lemma present_prefix_all asset_infos asset_ids :
  first_missing asset_infos asset_ids = None →
  present_prefix asset_infos asset_ids = asset_ids.
Proof.
  induction asset_ids as [|a rest IH]; simpl; [done|].
  destruct (asset_infos !! a); [|done]. intros H. by rewrite IH.
Qed.

Lemma first_missing_Some asset_infos asset_ids asset_id :
  first_missing asset_infos asset_ids = Some asset_id
  ↔ ∃ before after,
      asset_ids = before ++ asset_id :: after
      ∧ asset_infos !! asset_id = None
      ∧ ∀ x, x ∈ before → is_Some (asset_infos !! x).
Proof.
  induction asset_ids as [|a rest IH]; simpl.
  - split; [done|]. intros (before & after & H & _). by destruct before.
  - destruct (asset_infos !! a) eqn:E.
    + rewrite IH. split.
      * intros (before & after & -> & Hn & Hb).
        exists (a :: before), after. split_and!; [done..|].
        intros x [->|Hx]%elem_of_cons; [by rewrite E|by apply Hb].
      * intros (before & after & H & Hn & Hb).
        destruct before as [|b before]; simpl in H.
        -- injection H as -> _. congruence.
        -- injection H as -> ->. exists before, after. split_and!; [done..|].
           intros x Hx. apply Hb. by right.
    + split.
      * intros [= ->]. exists [], rest. split_and!; [done..|].
        intros x Hx. by apply elem_of_nil in Hx.
      * intros (before & after & H & Hn & Hb).
        destruct before as [|b before]; simpl in H.
        -- by injection H as -> _.
        -- injection H as -> _.
           destruct (Hb b) as [? Hs]; [by left|congruence].
Qed.

Lemma tally_closed results :
  ∀ k success_count fail_count (result_metadata : list pydict) w,
  length result_metadata = k + length results →
  tally (zip (seq k (length results)) results)
    success_count fail_count result_metadata w
  = (inr (success_count + count_flag true results,
          fail_count + count_flag false results,
          take k result_metadata
            ++ zip_with set_success (drop k result_metadata) results),
     log_all (success_event <$> zip (seq k (length results)) results) w).
Proof.
  induction results as [|[b e] rest IH]; intros k sc fc rm w Hlen.
  - simpl in *. rewrite !Nat.add_0_r. unfold count_flag. simpl.
    by rewrite zip_with_nil_r, app_nil_r, log_all_nil, take_ge by lia.
  - simpl in Hlen. simpl.
    destruct (lookup_lt_is_Some_2 rm k ltac:(lia)) as [record Hrec].
    rewrite Hrec. unfold bind at 1, note at 1.
    rewrite IH by (rewrite length_insert; lia).
    rewrite log_log_all.
    rewrite drop_insert_lt by lia.
    rewrite (take_S_r (<[k:=dict_set record "success" (PyBool b)]> rm) k
               (dict_set record "success" (PyBool b)))
      by (apply list_lookup_insert_eq; lia).
    rewrite take_insert_ge by lia.
    rewrite (drop_S rm record k Hrec). simpl.
    rewrite <- app_assoc. simpl.
    unfold count_flag. rewrite !filter_cons. simpl.
    destruct b; simpl; repeat case_decide; try done; simpl;
      repeat f_equal; lia.
Qed.

Lemma tally_enumerate results (result_metadata : list pydict) w :
  length result_metadata = length results →
  tally (enumerate results) 0 0 result_metadata w
  = (inr (count_flag true results, count_flag false results,
          zip_with set_success result_metadata results),
     log_all (success_event <$> enumerate results) w).
Proof.
  intros Hlen. unfold enumerate. rewrite tally_closed by done.
  by rewrite take_0, drop_0.
Qed.

End Orchestrator.

(** ** The ways [main] ends *)

Section Main.
Context (net : network).
Context (writable : Path → bool).
Context (json_dumps : pyval → string).

Lemma get_asset_information_result asset_ids fs0 :
  (get_asset_information net asset_ids (init_world fs0)).1
  = fetch_result net 0 (id_chunks asset_ids) ∅.
Proof. by rewrite get_asset_information_closed. Qed.

(** The metadata fetch raises: [main] raises the same, right there. *)
Lemma main_metadata_error path asset_ids fs0 e :
  fetch_result net 0 (id_chunks asset_ids) ∅ = inl e →
  main net writable json_dumps path asset_ids (init_world fs0)
  = (inl e, metadata_world net asset_ids fs0).
Proof.
  intros H. unfold main, bind at 1, echo at 1, note at 1, bind at 1.
  rewrite get_asset_information_closed. simpl. by rewrite H.
Qed.

(** A requested id has no metadata: [main] raises [KeyError] in the loop
    that builds the records. *)
Lemma main_key_error path asset_ids fs0 asset_infos asset_id :
  fetch_result net 0 (id_chunks asset_ids) ∅ = inr asset_infos →
  first_missing asset_infos asset_ids = Some asset_id →
  main net writable json_dumps path asset_ids (init_world fs0)
  = (inl (KeyError asset_id),
     launch_world asset_infos asset_ids (metadata_world net asset_ids fs0)).
Proof.
  intros H Hm. unfold main, bind at 1, echo at 1, note at 1, bind at 1.
  rewrite get_asset_information_closed. simpl. rewrite H.
  unfold bind at 1. by rewrite launch_closed, Hm.
Qed.

(** Otherwise every coroutine is awaited, the results are tallied, and the
    manifest file is opened. *)
Lemma main_completes path asset_ids fs0 asset_infos :
  fetch_result net 0 (id_chunks asset_ids) ∅ = inr asset_infos →
  first_missing asset_infos asset_ids = None →
  let text := Str (json_dumps
    (manifest (final_records net writable path asset_infos asset_ids))) in
  let w := tallied_world net writable path asset_infos asset_ids fs0 in
  main net writable json_dumps path asset_ids (init_world fs0)
  = if writable (manifest_path path)
    then (inr tt,
          {| fs := <[manifest_path path := text]> (fs w);
             trace := trace w ++ [FileOpen (manifest_path path) ModeW;
                                  FileWrite (manifest_path path) text;
                                  FileClose (manifest_path path)];
             develop_sent := develop_sent w;
             delivery_sent := delivery_sent w |})
    else (inl (OSError (manifest_path path)), w).
Proof.
  intros H Hm text w.
  unfold main, bind at 1, echo at 1, note at 1, bind at 1.
  rewrite get_asset_information_closed. simpl. rewrite H.
  unfold bind at 1. rewrite launch_closed, Hm. simpl.
  unfold bind at 1. rewrite await_all_closed. simpl.
  unfold bind at 1.
  rewrite tally_enumerate
    by (rewrite await_outcomes_length; unfold jobs_of; by rewrite !length_fmap).
  simpl. unfold bind at 1, echo at 1, note at 1.
  unfold async_with_open, aiofiles_open.
  destruct (writable (manifest_path path)); [|done].
  unfold file_write. simpl. rewrite lookup_insert_eq. simpl.
  unfold log. simpl. rewrite insert_insert_eq, <- !app_assoc. done.
Qed.

(** The traces of these worlds. *)
Lemma metadata_world_trace asset_ids fs0 :
  Forall before_downloads (trace (metadata_world net asset_ids fs0)).
Proof.
  unfold metadata_world, fetch_world. simpl. apply Forall_cons. split; [done|].
  by apply Forall_fmap_GetAssets.
Qed.

Lemma launch_world_trace asset_infos asset_ids w :
  Forall before_downloads (trace w) →
  Forall before_downloads (trace (launch_world asset_infos asset_ids w)).
Proof.
  intros H. unfold launch_world. simpl. apply Forall_app. split; [done|].
  by apply Forall_fmap_RecordAppend.
Qed.

Lemma tallied_world_trace path asset_infos asset_ids fs0 :
  first_missing asset_infos asset_ids = None →
  trace (tallied_world net writable path asset_infos asset_ids fs0)
  = (trace (metadata_world net asset_ids fs0)
       ++ (RecordAppend <$> (record_at asset_infos <$> asset_ids)))
    ++ await_events net writable 0 (jobs_of path asset_infos asset_ids)
    ++ (success_event
          <$> enumerate (final_results net writable path asset_infos asset_ids))
    ++ [Echo (summary_of (final_results net writable path asset_infos asset_ids))].
Proof.
  intros Hm. unfold tallied_world, launch_world. simpl.
  rewrite (present_prefix_all _ _ Hm). by rewrite <- !app_assoc.
Qed.

End Main.

(** ** Records, file names and paths *)


Lemma dict_get_set_ne (d : pydict) k k' v :
  k' ≠ k → dict_get (dict_set d k v) k' = dict_get d k'.
Proof.
  intros Hne. induction d as [|[k0 v0] d IH]; simpl.
  - by rewrite decide_False.
  - destruct (decide (k0 = k)) as [->|Hk]; simpl.
    + by rewrite !decide_False by done.
    + by rewrite IH.
Qed.

Lemma extension_table (type_id : Z) :
  extension type_id
  = if decide (type_id = 1)%Z then "png"
    else if decide (type_id = 3)%Z then "mp3"
    else if decide (type_id = 5)%Z then "lua"
    else if decide (type_id = 7)%Z then "txt"
    else if decide (type_id = 9)%Z then "rbxl"
    else if decide (type_id = 10)%Z then "rbxm"
    else "bin".
Proof.
  unfold extension, get_default, asset_type_to_extension.
  rewrite !lookup_insert, lookup_empty.
  repeat case_decide; subst; simpl; congruence.
Qed.

Lemma string_length_app (s t : string) :
  String.length (s +:+ t) = String.length s + String.length t.
Proof.
  induction s as [|a s IH]; [done|].
  change (S (String.length (s +:+ t)) = S (String.length s) + String.length t).
  by rewrite IH.
Qed.

Lemma string_app_inj_suffix (s1 t1 s2 t2 : string) :
  String.length s2 = String.length t2 → s1 +:+ s2 = t1 +:+ t2 → s2 = t2.
Proof.
  revert t1. induction s1 as [|a s1 IH]; intros [|b t1] Hl H.
  - exact H.
  - apply (f_equal String.length) in H.
    rewrite !string_length_app in H. simpl in H. lia.
  - apply (f_equal String.length) in H.
    rewrite !string_length_app in H. simpl in H. lia.
  - change (String a (s1 +:+ s2) = String b (t1 +:+ t2)) in H.
    injection H as _ H. by eapply IH.
Qed.

(** No asset is written to the manifest's file name. *)
Lemma asset_filename_not_manifest asset_id asset_info :
  asset_filename asset_id asset_info ≠ "assets.json".
Proof.
  unfold asset_filename, asset_extension. rewrite extension_table.
  intros H.
  repeat case_decide;
    first [ apply (string_app_inj_suffix _ "assets." _ "json") in H; [done|done]
          | apply (string_app_inj_suffix _ "assets" _ ".json") in H; [done|done] ].
Qed.

Lemma path_join_inj path name1 name2 :
  path_join path name1 = path_join path name2 → name1 = name2.
Proof. unfold path_join. by intros [_ [= ->]]%app_inj_tail. Qed.

Lemma path_at_not_manifest path asset_infos asset_id :
  path_at path asset_infos asset_id ≠ manifest_path path.
Proof.
  unfold path_at, manifest_path. intros H%path_join_inj.
  by apply asset_filename_not_manifest in H.
Qed.







Section FinalRecords.
Context (net : network).
Context (writable : Path → bool).

Lemma jobs_of_lookup path asset_infos asset_ids i asset_id :
  asset_ids !! i = Some asset_id →
  jobs_of path asset_infos asset_ids !! i
  = Some (asset_id, path_at path asset_infos asset_id).
Proof. intros H. unfold jobs_of. by rewrite list_lookup_fmap, H. Qed.

Lemma jobs_of_length path asset_infos asset_ids :
  length (jobs_of path asset_infos asset_ids) = length asset_ids.
Proof. unfold jobs_of. by rewrite length_fmap. Qed.

Lemma jobs_of_ids path asset_infos asset_ids :
  (jobs_of path asset_infos asset_ids).*1 = asset_ids.
Proof.
  unfold jobs_of. rewrite <- list_fmap_compose.
  rewrite <- (list_fmap_id asset_ids) at 2. by apply list_fmap_ext.
Qed.

Lemma final_results_length path asset_infos asset_ids :
  length (final_results net writable path asset_infos asset_ids)
  = length asset_ids.
Proof. unfold final_results. by rewrite await_outcomes_length, jobs_of_length. Qed.

Lemma final_results_lookup path asset_infos asset_ids i asset_id :
  asset_ids !! i = Some asset_id →
  final_results net writable path asset_infos asset_ids !! i
  = Some (download_outcome net writable i
            (asset_id, path_at path asset_infos asset_id)).
Proof.
  intros H. unfold final_results.
  by rewrite (await_outcomes_lookup _ _ _ _ _ _ (jobs_of_lookup _ _ _ _ _ H)).
Qed.

Lemma final_records_length path asset_infos asset_ids :
  length (final_records net writable path asset_infos asset_ids)
  = length asset_ids.
Proof.
  unfold final_records.
  rewrite length_zip_with, length_fmap, final_results_length. lia.
Qed.

Lemma final_records_lookup path asset_infos asset_ids i asset_id :
  asset_ids !! i = Some asset_id →
  final_records net writable path asset_infos asset_ids !! i
  = Some (set_success (record_at asset_infos asset_id)
            (download_outcome net writable i
               (asset_id, path_at path asset_infos asset_id))).
Proof.
  intros H. unfold final_records.
  rewrite lookup_zip_with, list_lookup_fmap, H. simpl.
  by rewrite (final_results_lookup _ _ _ _ _ H).
Qed.


End FinalRecords.

(** ** Reading the trace of a completed run *)

Lemma mutations_cons e t :
  mutations (e :: t)
  = match e with RecordAppend _ | RecordSet _ _ _ => [e] | _ => [] end ++ mutations t.
Proof. unfold mutations. simpl. by destruct e. Qed.

Lemma mutations_RecordAppend (records : list pydict) :
  mutations (RecordAppend <$> records) = RecordAppend <$> records.
Proof.
  induction records as [|r l IH]; [done|].
  rewrite !fmap_cons, mutations_cons, IH. done.
Qed.

Lemma mutations_success_events (results : list (bool * option exn)) k :
  mutations (success_event <$> zip (seq k (length results)) results)
  = imap (λ i b, RecordSet (k + i) "success" (PyBool b)) results.*1.
Proof.
  revert k. induction results as [|r l IH]; intros k; [done|].
  cbn [length seq zip zip_with]. rewrite !fmap_cons, mutations_cons, IH.
  unfold success_event at 1. cbn [fst snd app imap].
  rewrite Nat.add_0_r. f_equal. apply imap_ext. intros i b _. simpl. f_equal. lia.
Qed.

Lemma before_downloads_mutations t :
  Forall (λ e, match e with Echo _ | GetAssets _ => True | _ => False end) t →
  mutations t = [].
Proof.
  induction 1 as [|e t He _ IH]; [done|].
  rewrite mutations_cons, IH. by destruct e.
Qed.

Lemma content_queries_success_events l :
  content_queries (success_event <$> l) = [].
Proof. apply quiet_content_queries. by apply Forall_fmap_success_event. Qed.

Section CompletedRun.
Context (net : network).
Context (writable : Path → bool).
Context (json_dumps : pyval → string).

Lemma metadata_world_trace_ok asset_ids fs0 asset_infos :
  fetch_result net 0 (id_chunks asset_ids) ∅ = inr asset_infos →
  trace (metadata_world net asset_ids fs0)
  = Echo "Fetching asset information..." :: (GetAssets <$> id_chunks asset_ids).
Proof.
  intros (Hsent & _ & _)%fetch_result_inr.
  unfold metadata_world, fetch_world. simpl. by rewrite Hsent, firstn_all.
Qed.

(** The run in which the metadata holds every id and the manifest can be
    opened: its result, its files and its trace. *)
Lemma completed_run path asset_ids fs0 asset_infos :
  (get_asset_information net asset_ids (init_world fs0)).1 = inr asset_infos →
  (∀ asset_id, asset_id ∈ asset_ids → is_Some (asset_infos !! asset_id)) →
  writable (manifest_path path) = true →
  let jobs := jobs_of path asset_infos asset_ids in
  let results := final_results net writable path asset_infos asset_ids in
  let text := Str (json_dumps
    (manifest (final_records net writable path asset_infos asset_ids))) in
  ∃ w',
    main net writable json_dumps path asset_ids (init_world fs0) = (inr tt, w')
    ∧ fs w' = <[manifest_path path := text]> (await_fs net writable 0 jobs fs0)
    ∧ trace w'
      = (Echo "Fetching asset information..."
           :: (GetAssets <$> id_chunks asset_ids)
           ++ (RecordAppend <$> (record_at asset_infos <$> asset_ids)))
        ++ await_events net writable 0 jobs
        ++ (success_event <$> enumerate results)
        ++ [Echo (summary_of results);
            FileOpen (manifest_path path) ModeW;
            FileWrite (manifest_path path) text;
            FileClose (manifest_path path)].
Proof.
  rewrite get_asset_information_result. intros Hfetch Hall%first_missing_None Hw.
  intros jobs results text.
  pose proof (main_completes net writable json_dumps path asset_ids fs0
                asset_infos Hfetch Hall) as Hmain.
  cbv zeta in Hmain. rewrite Hw in Hmain. rewrite Hmain.
  eexists. split; [done|]. split; [done|]. cbn [trace].
  rewrite (tallied_world_trace _ _ _ _ _ _ Hall).
  rewrite (metadata_world_trace_ok _ _ _ Hfetch).
  subst jobs results text. cbn [app]. by rewrite <- !app_assoc.
Qed.


End CompletedRun.

(** * The claims *)

(** C5: the metadata fetcher splits the id list into consecutive chunks of at
    most 50 ids whose concatenation is the input; a list of 120 ids gives
    three chunks of sizes 50, 50 and 20; and the metadata queries of a fetch
    are these chunks, one query per chunk, in order (all of them when the
    fetch returns, those up to the first failure when it raises). *)
Theorem C5_metadata_batches (net : network) (asset_ids : list Z) (w : world) :
  concat (id_chunks asset_ids) = asset_ids
  ∧ Forall (λ id_chunk, 0 < length id_chunk ≤ 50) (id_chunks asset_ids)
  ∧ (length asset_ids = 120 → length <$> id_chunks asset_ids = [50; 50; 20])
  ∧ ∃ sent,
      trace (get_asset_information net asset_ids w).2
      = trace w ++ (GetAssets <$> take sent (id_chunks asset_ids))
      ∧ ∀ asset_infos,
          (get_asset_information net asset_ids w).1 = inr asset_infos →
          sent = length (id_chunks asset_ids).
Proof.
  split_and!.
  - apply concat_id_chunks.
  - apply id_chunks_sizes.
  - apply id_chunks_120.
  - rewrite get_asset_information_closed. simpl.
    exists (fetch_sent net (develop_sent w) (id_chunks asset_ids)).
    split; [done|]. by intros asset_infos (H & _)%fetch_result_inr.
Qed.

(** C5 on the ids 1..120 and a service that answers every query. *)
Lemma C5_metadata_batches_witness :
  length <$> id_chunks (seqZ 1 120) = [50; 50; 20]
  ∧ metadata_queries
      (trace (get_asset_information ex_net (seqZ 1 120) (init_world ∅)).2)
    = id_chunks (seqZ 1 120).
Proof.
  destruct (C5_metadata_batches ex_net (seqZ 1 120) (init_world ∅))
    as (_ & _ & H120 & _).
  split; [apply H120; reflexivity | vm_compute; reflexivity].
Defined.

(** C6: if the reply to the metadata query of any chunk is a failure (no
    response, or a status of 400 or more), [main] raises before any download:
    the file system is as it was, no content query was sent, and the trace
    holds nothing but console output and metadata queries. *)
Theorem C6_metadata_failure_aborts (net : network) (writable : Path → bool)
    (json_dumps : pyval → string) (path : Path) (asset_ids : list Z)
    (fs0 : gmap Path data) (k : nat) (id_chunk : list Z) :
  id_chunks asset_ids !! k = Some id_chunk →
  failed_reply (develop net k id_chunk) = true →
  ∃ e w',
    main net writable json_dumps path asset_ids (init_world fs0) = (inl e, w')
    ∧ fs w' = fs0
    ∧ delivery_sent w' = 0
    ∧ Forall (λ ev, match ev with Echo _ | GetAssets _ => True | _ => False end)
        (trace w').
Proof.
  intros Hk Hfail.
  destruct (fetch_result_failed net 0 (id_chunks asset_ids) ∅ k id_chunk Hk Hfail)
    as [e He].
  exists e, (metadata_world net asset_ids fs0).
  split; [by apply main_metadata_error|]. split_and!; [done..|].
  unfold metadata_world, fetch_world. simpl. apply Forall_cons. split; [done|].
  by apply Forall_fmap_GetAssets.
Qed.

(** C6 on 60 ids, when the second metadata query is answered 500. *)
Lemma C6_metadata_failure_aborts_witness :
  ∃ e w',
    main ex_net_down ex_writable ex_dumps ex_path (seqZ 1 60) (init_world ∅)
    = (inl e, w')
    ∧ fs w' = ∅
    ∧ delivery_sent w' = 0
    ∧ Forall (λ ev, match ev with Echo _ | GetAssets _ => True | _ => False end)
        (trace w').
Proof.
  apply (C6_metadata_failure_aborts ex_net_down ex_writable ex_dumps ex_path
           (seqZ 1 60) ∅ 1 (seqZ 51 10)); reflexivity.
Defined.

(** C8: if the metadata fetch returns but leaves out a requested id, [main]
    raises [KeyError] for the first such id of the input, in the loop that
    builds the records; no content query was sent and no file was touched. *)
Theorem C8_missing_metadata_is_fatal (net : network) (writable : Path → bool)
    (json_dumps : pyval → string) (path : Path) (asset_ids : list Z)
    (fs0 : gmap Path data) (asset_infos : gmap Z asset_data) (asset_id : Z) :
  (get_asset_information net asset_ids (init_world fs0)).1 = inr asset_infos →
  asset_id ∈ asset_ids →
  asset_infos !! asset_id = None →
  ∃ first before after w',
    main net writable json_dumps path asset_ids (init_world fs0)
    = (inl (KeyError first), w')
    ∧ asset_ids = before ++ first :: after
    ∧ asset_infos !! first = None
    ∧ (∀ x, x ∈ before → is_Some (asset_infos !! x))
    ∧ fs w' = fs0
    ∧ delivery_sent w' = 0
    ∧ Forall before_downloads (trace w').
Proof.
  rewrite get_asset_information_result. intros Hfetch Hin Hnone.
  destruct (first_missing asset_infos asset_ids) as [first|] eqn:Hfirst.
  - pose proof Hfirst as (before & after & Hids & Hf & Hb)%first_missing_Some.
    exists first, before, after. eexists.
    split; [by apply main_key_error|]. split_and!; [done..|].
    apply launch_world_trace, metadata_world_trace.
  - destruct (proj1 (first_missing_None _ _) Hfirst asset_id Hin) as [? Hs].
    congruence.
Qed.

(** C8 on the ids 1, 5, 2 when the service leaves 5 out of its answer. *)
Lemma C8_missing_metadata_is_fatal_witness :
  ∃ first before after w',
    main ex_net_omit ex_writable ex_dumps ex_path [1; 5; 2]%Z (init_world ∅)
    = (inl (KeyError first), w')
    ∧ [1; 5; 2]%Z = before ++ first :: after
    ∧ ({[1%Z := ex_data 1; 2%Z := ex_data 2]} : gmap Z asset_data) !! first = None
    ∧ (∀ x, x ∈ before →
         is_Some (({[1%Z := ex_data 1; 2%Z := ex_data 2]} : gmap Z asset_data) !! x))
    ∧ fs w' = ∅
    ∧ delivery_sent w' = 0
    ∧ Forall before_downloads (trace w').
Proof.
  apply (C8_missing_metadata_is_fatal ex_net_omit ex_writable ex_dumps ex_path
           [1; 5; 2]%Z ∅ {[1%Z := ex_data 1; 2%Z := ex_data 2]} 5%Z).
  - vm_compute. reflexivity.
  - set_solver.
  - reflexivity.
Defined.

(** A download that completes leaves an empty file, whatever was fetched:
    the file is opened (created or truncated) and closed, and no write
    happens in between. *)
Lemma download_writes_no_bytes (net : network) (writable : Path → bool)
    (asset_id : Z) (asset_path : Path) (w : world) (s : Z) (content : list byte) :
  assetdelivery net (delivery_sent w) asset_id = Reply s content →
  (s < 400)%Z →
  writable asset_path = true →
  ∃ w',
    download_asset_to_path net writable asset_id asset_path w = (inr tt, w')
    ∧ fs w' !! asset_path = Some (Bytes [])
    ∧ trace w' = trace w ++ [GetAsset asset_id;
                             FileOpen asset_path ModeWB; FileClose asset_path].
Proof.
  intros Hreply Hs Hw. rewrite download_asset_to_path_closed.
  unfold outcome_result, download_outcome, download_world, download_fs,
    download_events, download_ok. simpl.
  rewrite Hreply, Hw. simpl. rewrite bool_decide_eq_false_2 by lia. simpl.
  eexists. split; [done|]. simpl. by rewrite lookup_insert_eq.
Qed.

(** C1, at the failing input: asset 1 is fetched (four bytes) and its
    download completes, yet the file [out/1.png] holds no bytes, and the
    trace of the download has an open and a close but no write. *)
Theorem C1_fetched_bytes_are_not_written :
  let r := download_asset_to_path ex_net ex_writable 1 ["out"; "1.png"]
             (init_world ∅) in
  (get_asset_contents ex_net 1 (init_world ∅)).1 = inr ex_content
  ∧ r.1 = inr tt
  ∧ fs r.2 !! ["out"; "1.png"] = Some (Bytes [])
  ∧ fs r.2 !! ["out"; "1.png"] ≠ Some (Bytes ex_content)
  ∧ trace r.2 = [GetAsset 1; FileOpen ["out"; "1.png"] ModeWB;
                 FileClose ["out"; "1.png"]].
Proof. vm_compute. split_and!; [done..| |done]. by intros [=]. Qed.

(** ** One download at a time *)

Section Sequential.
Context (net : network).
Context (writable : Path → bool).
Context (json_dumps : pyval → string).

Lemma launch_length path asset_infos asset_ids w launched w' :
  launch net writable path asset_infos asset_ids [] [] w = (inr launched, w') →
  length launched.2 = length asset_ids
  ∧ content_queries (trace w') = content_queries (trace w)
  ∧ fs w' = fs w.
Proof.
  rewrite launch_closed.
  destruct (first_missing asset_infos asset_ids); [done|].
  intros [= <- <-]. simpl. split_and!; [|  |done].
  - unfold coroutines_of, jobs_of. by rewrite !length_fmap.
  - rewrite content_queries_app, (quiet_content_queries (_ <$> _)), app_nil_r;
      [done|]. by apply Forall_fmap_RecordAppend.
Qed.

(** Whatever way [main] ends, its trace is quiet actions, then the await
    loop over some downloads, then quiet actions. *)
Lemma main_trace_shape path asset_ids fs0 :
  ∃ before jobs after,
    trace (main net writable json_dumps path asset_ids (init_world fs0)).2
    = before ++ await_events net writable 0 jobs ++ after
    ∧ Forall quiet before ∧ Forall quiet after.
Proof.
  destruct (fetch_result net 0 (id_chunks asset_ids) ∅) as [e|asset_infos] eqn:Hf.
  - rewrite (main_metadata_error _ _ _ _ _ _ _ Hf).
    exists (trace (metadata_world net asset_ids fs0)), [], [].
    cbn [snd await_events]. rewrite !app_nil_r. split_and!; [done| |done].
    apply before_downloads_quiet, metadata_world_trace.
  - destruct (first_missing asset_infos asset_ids) as [missing|] eqn:Hm.
    + rewrite (main_key_error _ _ _ _ _ _ _ _ Hf Hm).
      eexists _, [], []. cbn [snd await_events]. rewrite !app_nil_r.
      split_and!; [done| |done].
      apply before_downloads_quiet.
      apply (launch_world_trace asset_infos asset_ids), metadata_world_trace.
    + pose proof (main_completes net writable json_dumps path asset_ids fs0
                    asset_infos Hf Hm) as Hmain.
      cbv zeta in Hmain. rewrite Hmain.
      exists (trace (metadata_world net asset_ids fs0)
                ++ (RecordAppend <$> (record_at asset_infos <$> asset_ids))),
        (jobs_of path asset_infos asset_ids).
      assert (Forall quiet
                (trace (metadata_world net asset_ids fs0)
                   ++ (RecordAppend <$> (record_at asset_infos <$> asset_ids))))
        as Hq.
      { apply Forall_app. split.
        - apply before_downloads_quiet, metadata_world_trace.
        - by apply Forall_fmap_RecordAppend. }
      destruct (writable (manifest_path path)); cbn [snd trace];
        rewrite (tallied_world_trace _ _ _ _ _ _ Hm);
        eexists; (split; [rewrite <- !app_assoc; reflexivity|]);
        (split; [exact Hq|]).
      * apply Forall_app. split; [by apply Forall_fmap_success_event|].
        by repeat constructor.
      * apply Forall_app. split; [by apply Forall_fmap_success_event|].
        by repeat constructor.
Qed.

End Sequential.

(** C2, as amended: once the metadata is fetched, one coroutine per asset is
    built (building them sends no content query and touches no file), and
    the coroutines are then awaited one at a time in input order: along the
    trace of any run at most one download is in flight; and when [main]
    returns, the content queries of the run are the input ids in order and
    no download is in flight when the manifest file is opened. *)
Theorem C2_downloads_run_one_at_a_time (net : network) (writable : Path → bool)
    (json_dumps : pyval → string) (path : Path) (asset_ids : list Z)
    (fs0 : gmap Path data) :
  let r := main net writable json_dumps path asset_ids (init_world fs0) in
  (∀ asset_infos w launched w',
      launch net writable path asset_infos asset_ids [] [] w = (inr launched, w') →
      length launched.2 = length asset_ids
      ∧ content_queries (trace w') = content_queries (trace w)
      ∧ fs w' = fs w)
  ∧ peak_in_flight (trace r.2) ≤ 1
  ∧ (r.1 = inr tt →
       content_queries (trace r.2) = asset_ids
       ∧ ∃ before text,
           trace r.2 = before ++ [FileOpen (manifest_path path) ModeW;
                                  FileWrite (manifest_path path) text;
                                  FileClose (manifest_path path)]
           ∧ in_flight before = 0).
Proof.
  intros r. split_and!.
  - intros asset_infos w launched w'. apply launch_length.
  - destruct (main_trace_shape net writable json_dumps path asset_ids fs0)
      as (before & jobs & after & Ht & Hb & Ha).
    subst r. rewrite Ht. unfold peak_in_flight.
    rewrite peak_from_app, (quiet_peak _ _ Hb), (quiet_in_flight _ _ Hb).
    pose proof (await_events_peak net writable 0 jobs after) as Hp.
    rewrite (quiet_peak _ _ Ha) in Hp. lia.
  - subst r.
    destruct (fetch_result net 0 (id_chunks asset_ids) ∅) as [e|asset_infos] eqn:Hf;
      [by rewrite (main_metadata_error _ _ _ _ _ _ _ Hf)|].
    destruct (first_missing asset_infos asset_ids) as [missing|] eqn:Hm;
      [by rewrite (main_key_error _ _ _ _ _ _ _ _ Hf Hm)|].
    destruct (writable (manifest_path path)) eqn:Hw.
    + rewrite <- (get_asset_information_result net asset_ids fs0) in Hf.
      destruct (completed_run net writable json_dumps path asset_ids fs0
                  asset_infos Hf (proj1 (first_missing_None _ _) Hm) Hw)
        as (w' & -> & _ & Ht).
      intros _. cbn [snd]. rewrite Ht. split.
      * rewrite !content_queries_app, await_events_content_queries, jobs_of_ids.
        rewrite content_queries_success_events.
        rewrite (quiet_content_queries (Echo _ :: _)) by apply prelude_quiet.
        by rewrite app_nil_r.
      * exists ((Echo "Fetching asset information..."
                   :: (GetAssets <$> id_chunks asset_ids)
                   ++ (RecordAppend <$> (record_at asset_infos <$> asset_ids)))
                ++ await_events net writable 0 (jobs_of path asset_infos asset_ids)
                ++ (success_event <$> enumerate
                      (final_results net writable path asset_infos asset_ids))
                ++ [Echo (summary_of
                      (final_results net writable path asset_infos asset_ids))]).
        eexists. split.
        -- rewrite <- !app_assoc. reflexivity.
        -- unfold in_flight. rewrite !in_flight_from_app.
           rewrite (quiet_in_flight 0 (Echo _ :: _ ++ _)) by apply prelude_quiet.
           rewrite await_events_in_flight.
           rewrite (quiet_in_flight 0 (success_event <$> _))
             by (by apply Forall_fmap_success_event).
           apply quiet_in_flight. by repeat constructor.
    + pose proof (main_completes net writable json_dumps path asset_ids fs0
                    asset_infos Hf Hm) as Hmain.
      cbv zeta in Hmain. rewrite Hw in Hmain. by rewrite Hmain.
Qed.

(** C2 on the ids 1 and 3, both of which download. *)
Lemma C2_downloads_run_one_at_a_time_witness :
  let r := main ex_net ex_writable ex_dumps ex_path [1; 3]%Z (init_world ∅) in
  r.1 = inr tt
  ∧ peak_in_flight (trace r.2) ≤ 1
  ∧ content_queries (trace r.2) = [1; 3]%Z.
Proof.
  intros r.
  destruct (C2_downloads_run_one_at_a_time ex_net ex_writable ex_dumps ex_path
              [1; 3]%Z ∅) as (_ & Hpeak & Hdone).
  assert (r.1 = inr tt) as Hr by (vm_compute; reflexivity).
  split; [exact Hr|]. split; [exact Hpeak|]. exact (proj1 (Hdone Hr)).
Defined.

(** C2 as stated fails: with two assets that both download, there is no
    point of the run at which both downloads are in flight. The second
    content query is sent after the first file is closed. *)
Lemma C2_not_all_in_flight_at_once :
  let r := main ex_net ex_writable ex_dumps ex_path [1; 3]%Z (init_world ∅) in
  r.1 = inr tt
  ∧ trace r.2
    = [Echo "Fetching asset information..."; GetAssets [1; 3]%Z;
       RecordAppend (new_record 1 (ex_data 1));
       RecordAppend (new_record 3 (ex_data 3));
       GetAsset 1; FileOpen ["out"; "1.png"] ModeWB; FileClose ["out"; "1.png"];
       Progress;
       GetAsset 3; FileOpen ["out"; "3.mp3"] ModeWB; FileClose ["out"; "3.mp3"];
       Progress;
       RecordSet 0 "success" (PyBool true); RecordSet 1 "success" (PyBool true);
       Echo "2 assets downloaded. 2 succeeded, 0 failed.";
       FileOpen ["out"; "assets.json"] ModeW;
       FileWrite ["out"; "assets.json"]
         (Str (ex_dumps (manifest
            [dict_set (new_record 1 (ex_data 1)) "success" (PyBool true);
             dict_set (new_record 3 (ex_data 3)) "success" (PyBool true)])));
       FileClose ["out"; "assets.json"]]
  ∧ ¬ in_flight_together (length [1; 3]%Z) (trace r.2).
Proof.
  intros r. split_and!.
  - vm_compute. reflexivity.
  - vm_compute. reflexivity.
  - intros (before & after & Ht & Hn).
    pose proof (in_flight_le_peak 0 before after) as Hle.
    rewrite <- Ht in Hle. fold (in_flight before) in Hle. rewrite Hn in Hle.
    assert (peak_from 0 (trace r.2) = 1) as Hp by (vm_compute; reflexivity).
    rewrite Hp in Hle. simpl in Hle. lia.
Qed.

(** ** The records of a completed run *)

Section Records.
Context (net : network).
Context (writable : Path → bool).
Context (json_dumps : pyval → string).

Lemma info_at_present asset_infos asset_id asset_info :
  asset_infos !! asset_id = Some asset_info →
  info_at asset_infos asset_id = asset_info.
Proof. intros H. unfold info_at. by rewrite H. Qed.



End Records.







(** C9: in a completed run the trace splits in three. In the first part the
    records are appended to [result_metadata], each with exactly the keys
    [name], [id], [filename], [type_id] (no [success]), and no content query
    is sent. In the second part the downloads run and settle and no record
    is touched. In the third part the only mutations are one assignment of
    [success] per record. The records of the manifest are the created ones
    with [success] set: every other key reads as it did at creation. *)
Theorem C9_records_only_gain_success (net : network) (writable : Path → bool)
    (json_dumps : pyval → string) (path : Path) (asset_ids : list Z)
    (fs0 : gmap Path data) (asset_infos : gmap Z asset_data) :
  (get_asset_information net asset_ids (init_world fs0)).1 = inr asset_infos →
  (∀ asset_id, asset_id ∈ asset_ids → is_Some (asset_infos !! asset_id)) →
  writable (manifest_path path) = true →
  ∃ (created records : list pydict) (flags : list bool) w' t1 t2 t3,
    main net writable json_dumps path asset_ids (init_world fs0) = (inr tt, w')
    ∧ fs w' !! manifest_path path = Some (Str (json_dumps (manifest records)))
    ∧ trace w' = t1 ++ t2 ++ t3
    ∧ mutations t1 = RecordAppend <$> created
    ∧ content_queries t1 = []
    ∧ mutations t2 = []
    ∧ content_queries t2 = asset_ids
    ∧ in_flight t2 = 0
    ∧ mutations t3 = imap (λ i b, RecordSet i "success" (PyBool b)) flags
    ∧ content_queries t3 = []
    ∧ length created = length asset_ids
    ∧ length flags = length asset_ids
    ∧ (∀ record, record ∈ created →
         dict_keys record = ["name"; "id"; "filename"; "type_id"])
    ∧ records
      = zip_with (λ record b, dict_set record "success" (PyBool b)) created flags
    ∧ (∀ i final, records !! i = Some final →
         ∃ record, created !! i = Some record
                   ∧ dict_keys final = dict_keys record ++ ["success"]
                   ∧ ∀ key, key ≠ "success" →
                       dict_get final key = dict_get record key).
Proof.
  intros Hfetch Hall Hw.
  destruct (completed_run net writable json_dumps path asset_ids fs0 asset_infos
              Hfetch Hall Hw) as (w' & Hmain & Hfs & Ht).
  set (results := final_results net writable path asset_infos asset_ids) in *.
  exists (record_at asset_infos <$> asset_ids),
    (final_records net writable path asset_infos asset_ids), results.*1, w'.
  eexists _, _, _. split_and!.
  - done.
  - by rewrite Hfs, lookup_insert_eq.
  - exact Ht.
  - rewrite mutations_cons, mutations_app, mutations_RecordAppend.
    by rewrite (before_downloads_mutations (GetAssets <$> _))
      by (by apply Forall_fmap_GetAssets).
  - apply quiet_content_queries, prelude_quiet.
  - apply await_events_mutations.
  - by rewrite await_events_content_queries, jobs_of_ids.
  - apply await_events_in_flight.
  - rewrite mutations_app. unfold enumerate. rewrite mutations_success_events.
    rewrite !mutations_cons. simpl. by rewrite app_nil_r.
  - rewrite content_queries_app, content_queries_success_events. done.
  - by rewrite length_fmap.
  - subst results. by rewrite length_fmap, final_results_length.
  - intros record (asset_id & -> & _)%list_elem_of_fmap. done.
  - unfold final_records. fold results. by rewrite zip_with_fmap_r.
  - intros i final Hrec.
    destruct (lookup_lt_is_Some_2 asset_ids i) as [asset_id Hi].
    { apply lookup_lt_Some in Hrec. by rewrite final_records_length in Hrec. }
    rewrite (final_records_lookup _ _ _ _ _ _ _ Hi) in Hrec.
    injection Hrec as <-.
    exists (record_at asset_infos asset_id). split_and!.
    + by rewrite list_lookup_fmap, Hi.
    + done.
    + intros key Hkey. unfold set_success. by apply dict_get_set_ne.
Qed.

(** C9 on the ids 1, 2, 3. *)
Lemma C9_records_only_gain_success_witness :
  ∃ (created records : list pydict) (flags : list bool) w' t1 t2 t3,
    main ex_net ex_writable ex_dumps ex_path [1; 2; 3]%Z (init_world ∅)
    = (inr tt, w')
    ∧ fs w' !! manifest_path ex_path = Some (Str (ex_dumps (manifest records)))
    ∧ trace w' = t1 ++ t2 ++ t3
    ∧ mutations t1 = RecordAppend <$> created
    ∧ content_queries t1 = []
    ∧ mutations t2 = []
    ∧ content_queries t2 = [1; 2; 3]%Z
    ∧ in_flight t2 = 0
    ∧ mutations t3 = imap (λ i b, RecordSet i "success" (PyBool b)) flags
    ∧ content_queries t3 = []
    ∧ length created = length [1; 2; 3]%Z
    ∧ length flags = length [1; 2; 3]%Z
    ∧ (∀ record, record ∈ created →
         dict_keys record = ["name"; "id"; "filename"; "type_id"])
    ∧ records
      = zip_with (λ record b, dict_set record "success" (PyBool b)) created flags
    ∧ (∀ i final, records !! i = Some final →
         ∃ record, created !! i = Some record
                   ∧ dict_keys final = dict_keys record ++ ["success"]
                   ∧ ∀ key, key ≠ "success" →
                       dict_get final key = dict_get record key).
Proof.
  apply (C9_records_only_gain_success ex_net ex_writable ex_dumps ex_path
           [1; 2; 3]%Z ∅
           {[1%Z := ex_data 1; 2%Z := ex_data 2; 3%Z := ex_data 3]}).
  - vm_compute. reflexivity.
  - intros asset_id Hin.
    repeat (apply elem_of_cons in Hin as [->|Hin]; [by eexists|]).
    by apply elem_of_nil in Hin.
  - reflexivity.
Defined.



(** * Further properties of the run *)

Lemma count_flag_total (results : list (bool * option exn)) :
  count_flag true results + count_flag false results = length results.
Proof.
  unfold count_flag. induction results as [|[[] e] rest IH]; [done|..];
    rewrite !filter_cons; simpl; repeat case_decide; try done; simpl; lia.
Qed.

(** Either some completed download targets [p], or none does. *)
Lemma await_fs_target_cases (net : network) (writable : Path → bool)
    (n : nat) (jobs : list (Z * Path)) (p : Path) :
  (∃ i job, jobs !! i = Some job ∧ job.2 = p
            ∧ download_ok net writable (n + i) job.1 job.2 = true)
  ∨ (∀ i job, jobs !! i = Some job → job.2 = p →
       download_ok net writable (n + i) job.1 job.2 = false).
Proof.
  revert n. induction jobs as [|job rest IH]; intros n; [by right|].
  destruct (decide (job.2 = p)) as [Hp|Hp];
    [destruct (download_ok net writable n job.1 job.2) eqn:Hok|].
  - left. exists 0, job. by rewrite Nat.add_0_r.
  - destruct (IH (S n)) as [(i & job' & Hi & Hp' & Hok')|Hnone].
    + left. exists (S i), job'. split_and!; [done..|].
      by replace (n + S i) with (S n + i) by lia.
    + right. intros [|i] job' Hi Hp'; simpl in Hi.
      * injection Hi as <-. by rewrite Nat.add_0_r.
      * replace (n + S i) with (S n + i) by lia. by apply Hnone.
  - destruct (IH (S n)) as [(i & job' & Hi & Hp' & Hok')|Hnone].
    + left. exists (S i), job'. split_and!; [done..|].
      by replace (n + S i) with (S n + i) by lia.
    + right. intros [|i] job' Hi Hp'; simpl in Hi.
      * by injection Hi as <-.
      * replace (n + S i) with (S n + i) by lia. by apply Hnone.
Qed.

(** X1, summary counts: whenever the downloads were awaited, the summary line is
    printed with the number of assets, and the numbers of successes and of
    failures it shows add up to the number of requested ids. *)
Theorem summary_counts_add_up (net : network) (writable : Path → bool)
    (json_dumps : pyval → string) (path : Path) (asset_ids : list Z)
    (fs0 : gmap Path data) (asset_infos : gmap Z asset_data) :
  (get_asset_information net asset_ids (init_world fs0)).1 = inr asset_infos →
  (∀ asset_id, asset_id ∈ asset_ids → is_Some (asset_infos !! asset_id)) →
  ∃ success_count fail_count,
    Echo (summary_line (length asset_ids) success_count fail_count)
      ∈ trace (main net writable json_dumps path asset_ids (init_world fs0)).2
    ∧ success_count + fail_count = length asset_ids.
Proof.
  rewrite get_asset_information_result. intros Hfetch Hall%first_missing_None.
  set (results := final_results net writable path asset_infos asset_ids).
  exists (count_flag true results), (count_flag false results).
  assert (length results = length asset_ids) as Hlen
    by apply final_results_length.
  split; [|by rewrite count_flag_total].
  pose proof (main_completes net writable json_dumps path asset_ids fs0
                asset_infos Hfetch Hall) as Hmain.
  cbv zeta in Hmain. rewrite Hmain.
  assert (Echo (summary_line (length asset_ids) (count_flag true results)
                  (count_flag false results))
            ∈ trace (tallied_world net writable path asset_infos asset_ids fs0))
    as Hin.
  { rewrite (tallied_world_trace _ _ _ _ _ _ Hall). rewrite !elem_of_app.
    right. right. right. fold results. unfold summary_of. rewrite Hlen.
    apply elem_of_cons. by left. }
  destruct (writable (manifest_path path)); cbn [snd trace]; [|done].
  rewrite elem_of_app. by left.
Qed.

(** The summary of the run on the ids 1, 2, 3. *)
Lemma summary_counts_add_up_witness :
  ∃ success_count fail_count,
    Echo (summary_line (length [1; 2; 3]%Z) success_count fail_count)
      ∈ trace (main ex_net ex_writable ex_dumps ex_path [1; 2; 3]%Z
                 (init_world ∅)).2
    ∧ success_count + fail_count = length [1; 2; 3]%Z.
Proof.
  apply (summary_counts_add_up ex_net ex_writable ex_dumps ex_path [1; 2; 3]%Z ∅
           {[1%Z := ex_data 1; 2%Z := ex_data 2; 3%Z := ex_data 3]}).
  - vm_compute. reflexivity.
  - intros asset_id Hin.
    repeat (apply elem_of_cons in Hin as [->|Hin]; [by eexists|]).
    by apply elem_of_nil in Hin.
Defined.

(** X2, idempotence: a completed run, run again on the files it left and with
    the services answering as before, completes again and leaves exactly
    the same files. *)
Theorem second_run_leaves_same_files (net : network) (writable : Path → bool)
    (json_dumps : pyval → string) (path : Path) (asset_ids : list Z)
    (fs0 : gmap Path data) (asset_infos : gmap Z asset_data) :
  (get_asset_information net asset_ids (init_world fs0)).1 = inr asset_infos →
  (∀ asset_id, asset_id ∈ asset_ids → is_Some (asset_infos !! asset_id)) →
  writable (manifest_path path) = true →
  ∃ w1 w2,
    main net writable json_dumps path asset_ids (init_world fs0) = (inr tt, w1)
    ∧ main net writable json_dumps path asset_ids (init_world (fs w1))
      = (inr tt, w2)
    ∧ fs w2 = fs w1.
Proof.
  intros Hfetch Hall Hw.
  destruct (completed_run net writable json_dumps path asset_ids fs0 asset_infos
              Hfetch Hall Hw) as (w1 & Hmain1 & Hfs1 & _).
  assert ((get_asset_information net asset_ids (init_world (fs w1))).1
          = inr asset_infos) as Hfetch2.
  { rewrite get_asset_information_result.
    by rewrite get_asset_information_result in Hfetch. }
  destruct (completed_run net writable json_dumps path asset_ids (fs w1)
              asset_infos Hfetch2 Hall Hw) as (w2 & Hmain2 & Hfs2 & _).
  exists w1, w2. split_and!; [done..|].
  rewrite Hfs2, Hfs1. apply map_eq. intros p.
  destruct (decide (manifest_path path = p)) as [<-|Hp];
    [by rewrite !lookup_insert_eq|].
  rewrite !lookup_insert_ne by done.
  destruct (await_fs_target_cases net writable 0
              (jobs_of path asset_infos asset_ids) p)
    as [(i & job & Hi & <- & Hok)|Hnone].
  - by rewrite !(await_fs_written net writable 0 _ _ i job Hi Hok).
  - rewrite (await_fs_untouched net writable 0 _ (<[_ := _]> _) p Hnone).
    by rewrite lookup_insert_ne by done.
Qed.

(** The run on the ids 1, 2, 3, twice. *)
Lemma second_run_leaves_same_files_witness :
  ∃ w1 w2,
    main ex_net ex_writable ex_dumps ex_path [1; 2; 3]%Z (init_world ∅)
    = (inr tt, w1)
    ∧ main ex_net ex_writable ex_dumps ex_path [1; 2; 3]%Z (init_world (fs w1))
      = (inr tt, w2)
    ∧ fs w2 = fs w1.
Proof.
  apply (second_run_leaves_same_files ex_net ex_writable ex_dumps ex_path
           [1; 2; 3]%Z ∅
           {[1%Z := ex_data 1; 2%Z := ex_data 2; 3%Z := ex_data 3]}).
  - vm_compute. reflexivity.
  - intros asset_id Hin.
    repeat (apply elem_of_cons in Hin as [->|Hin]; [by eexists|]).
    by apply elem_of_nil in Hin.
  - reflexivity.
Defined.

(** X3, what a download leaves alone: [download_asset_to_path] sends exactly
    one content query, whatever its outcome; it changes no path other than
    its own; and when it raises it changes no path at all. *)
Theorem download_touches_only_its_path (net : network) (writable : Path → bool)
    (asset_id : Z) (asset_path : Path) (w : world) :
  let r := download_asset_to_path net writable asset_id asset_path w in
  delivery_sent r.2 = S (delivery_sent w)
  ∧ develop_sent r.2 = develop_sent w
  ∧ content_queries (trace r.2) = content_queries (trace w) ++ [asset_id]
  ∧ (∀ q : Path, q ≠ asset_path → fs r.2 !! q = fs w !! q)
  ∧ (r.1 ≠ inr tt → fs r.2 = fs w).
Proof.
  intros r. subst r. rewrite download_asset_to_path_closed. cbn [fst snd].
  unfold download_world, download_fs, download_events, outcome_result,
    download_outcome. cbn [fst snd fs trace delivery_sent develop_sent].
  destruct (download_ok net writable (delivery_sent w) asset_id asset_path);
    cbn [fst snd]; split_and!; try done.
  - rewrite content_queries_app. done.
  - intros q Hq. by rewrite lookup_insert_ne.
  - rewrite content_queries_app. done.
Qed.

(** X4, what a run leaves alone: however [main] ends, a path whose content
    differs from what it was before the run is either the manifest
    [assets.json] of the output directory or a file of that directory named
    after a requested id, [<id>.<extension>]. *)
Theorem main_touches_only_its_files (net : network) (writable : Path → bool)
    (json_dumps : pyval → string) (path : Path) (asset_ids : list Z)
    (fs0 : gmap Path data) (q : Path) :
  fs (main net writable json_dumps path asset_ids (init_world fs0)).2 !! q
    ≠ fs0 !! q →
  q = path_join path "assets.json"
  ∨ ∃ asset_id type_id,
      asset_id ∈ asset_ids
      ∧ q = path_join path (pretty asset_id +:+ "." +:+ extension type_id).
Proof.
  destruct (fetch_result net 0 (id_chunks asset_ids) ∅) as [e|asset_infos] eqn:Hf;
    [by rewrite (main_metadata_error _ _ _ _ _ _ _ Hf)|].
  destruct (first_missing asset_infos asset_ids) as [missing|] eqn:Hm;
    [by rewrite (main_key_error _ _ _ _ _ _ _ _ Hf Hm)|].
  pose proof (main_completes net writable json_dumps path asset_ids fs0
                asset_infos Hf Hm) as Hmain.
  cbv zeta in Hmain. rewrite Hmain. clear Hmain.
  assert (await_fs net writable 0 (jobs_of path asset_infos asset_ids) fs0 !! q
            ≠ fs0 !! q →
          ∃ asset_id type_id,
            asset_id ∈ asset_ids
            ∧ q = path_join path (pretty asset_id +:+ "." +:+ extension type_id))
    as Hjobs.
  { intros Hne.
    destruct (await_fs_target_cases net writable 0
                (jobs_of path asset_infos asset_ids) q)
      as [(i & [asset_id p] & Hi & Hp & _)|Hnone].
    - simpl in Hp. subst p. unfold jobs_of in Hi.
      rewrite list_lookup_fmap in Hi.
      destruct (asset_ids !! i) as [z|] eqn:Hz; [|done].
      injection Hi as -> <-.
      exists asset_id, (ad_typeId (info_at asset_infos asset_id)).
      split; [by eapply list_elem_of_lookup_2|done].
    - by rewrite (await_fs_untouched net writable 0 _ _ q Hnone) in Hne. }
  destruct (writable (manifest_path path)); cbn [snd fs].
  - destruct (decide (manifest_path path = q)) as [<-|Hq]; [by left|].
    rewrite lookup_insert_ne by done. intros Hne. right. by apply Hjobs.
  - intros Hne. right. by apply Hjobs.
Qed.

(** X4 on the ids 1, 2, 3: the file [out/1.png] differs after the run. *)
Lemma main_touches_only_its_files_witness :
  ["out"; "1.png"] = path_join ex_path "assets.json"
  ∨ ∃ asset_id type_id,
      asset_id ∈ [1; 2; 3]%Z
      ∧ ["out"; "1.png"]
        = path_join ex_path (pretty asset_id +:+ "." +:+ extension type_id).
Proof.
  apply (main_touches_only_its_files ex_net ex_writable ex_dumps ex_path
           [1; 2; 3]%Z ∅ ["out"; "1.png"]).
  vm_compute. discriminate.
Defined.

(** X5, the empty id list: [main] sends no query at all, prints a summary of
    zero assets, and writes a manifest whose [assets] array is empty. *)
Theorem main_on_no_ids (net : network) (writable : Path → bool)
    (json_dumps : pyval → string) (path : Path) (fs0 : gmap Path data) :
  writable (manifest_path path) = true →
  let text := Str (json_dumps (PyDict [("assets", PyList [])])) in
  main net writable json_dumps path [] (init_world fs0)
  = (inr tt,
     {| fs := <[manifest_path path := text]> fs0;
        trace := [Echo "Fetching asset information...";
                  Echo "0 assets downloaded. 0 succeeded, 0 failed.";
                  FileOpen (manifest_path path) ModeW;
                  FileWrite (manifest_path path) text;
                  FileClose (manifest_path path)];
        develop_sent := 0;
        delivery_sent := 0 |}).
Proof.
  intros Hw text.
  pose proof (main_completes net writable json_dumps path [] fs0 ∅
                eq_refl eq_refl) as Hmain.
  cbv zeta in Hmain. rewrite Hw in Hmain. rewrite Hmain. done.
Qed.

(** X5 in the example environment. *)
Lemma main_on_no_ids_witness :
  main ex_net ex_writable ex_dumps ex_path [] (init_world ∅)
  = (inr tt,
     {| fs := {[ ["out"; "assets.json"]
                 := Str (ex_dumps (PyDict [("assets", PyList [])])) ]};
        trace := [Echo "Fetching asset information...";
                  Echo "0 assets downloaded. 0 succeeded, 0 failed.";
                  FileOpen ["out"; "assets.json"] ModeW;
                  FileWrite ["out"; "assets.json"]
                    (Str (ex_dumps (PyDict [("assets", PyList [])])));
                  FileClose ["out"; "assets.json"]];
        develop_sent := 0;
        delivery_sent := 0 |}).
Proof.
  apply (main_on_no_ids ex_net ex_writable ex_dumps ex_path ∅). reflexivity.
Defined.

(** X6, no rollback: when [assets.json] cannot be opened, [main] raises
    [OSError] only after every download was awaited and the summary printed:
    every content query was sent, the file of each completed download is in
    place, and no manifest is written. *)
Theorem manifest_failure_keeps_downloads (net : network) (writable : Path → bool)
    (json_dumps : pyval → string) (path : Path) (asset_ids : list Z)
    (fs0 : gmap Path data) (asset_infos : gmap Z asset_data) :
  (get_asset_information net asset_ids (init_world fs0)).1 = inr asset_infos →
  (∀ asset_id, asset_id ∈ asset_ids → is_Some (asset_infos !! asset_id)) →
  writable (manifest_path path) = false →
  ∃ w' success_count fail_count,
    main net writable json_dumps path asset_ids (init_world fs0)
    = (inl (OSError (manifest_path path)), w')
    ∧ content_queries (trace w') = asset_ids
    ∧ last (trace w')
      = Some (Echo (summary_line (length asset_ids) success_count fail_count))
    ∧ fs w' !! manifest_path path = fs0 !! manifest_path path
    ∧ ∀ i asset_id asset_info,
        asset_ids !! i = Some asset_id →
        asset_infos !! asset_id = Some asset_info →
        failed_reply (assetdelivery net i asset_id) = false →
        writable (path_join path (asset_filename asset_id asset_info)) = true →
        fs w' !! path_join path (asset_filename asset_id asset_info)
        = Some (Bytes []).
Proof.
  rewrite get_asset_information_result. intros Hfetch Hall%first_missing_None Hw.
  pose proof (main_completes net writable json_dumps path asset_ids fs0
                asset_infos Hfetch Hall) as Hmain.
  cbv zeta in Hmain. rewrite Hw in Hmain.
  set (results := final_results net writable path asset_infos asset_ids) in *.
  eexists _, (count_flag true results), (count_flag false results).
  split; [exact Hmain|]. rewrite (tallied_world_trace _ _ _ _ _ _ Hall).
  rewrite (metadata_world_trace_ok _ _ _ _ Hfetch). split_and!.
  - rewrite !content_queries_app, await_events_content_queries, jobs_of_ids.
    rewrite content_queries_success_events.
    rewrite (quiet_content_queries (Echo _ :: _))
      by (apply Forall_cons; split; [done|by apply Forall_fmap_GetAssets]).
    rewrite (quiet_content_queries (RecordAppend <$> _))
      by (by apply Forall_fmap_RecordAppend).
    cbn. by rewrite app_nil_r.
  - rewrite !app_assoc, last_snoc. fold results. unfold summary_of.
    subst results. by rewrite final_results_length.
  - cbn [fs tallied_world log log_all await_world launch_world].
    apply await_fs_untouched. intros i [z p] Hi Hp. simpl in *.
    unfold jobs_of in Hi. rewrite list_lookup_fmap in Hi.
    destruct (asset_ids !! i); [|done]. injection Hi as _ <-.
    by apply path_at_not_manifest in Hp.
  - intros i asset_id asset_info Hi Hinfo Hreply Hwp.
    cbn [fs tallied_world log log_all await_world launch_world].
    assert (path_at path asset_infos asset_id
            = path_join path (asset_filename asset_id asset_info)) as Hp
      by (unfold path_at; by rewrite (info_at_present _ _ _ Hinfo)).
    rewrite <- Hp.
    apply (await_fs_written net writable 0 _ _ i
             (asset_id, path_at path asset_infos asset_id)).
    + by apply jobs_of_lookup.
    + unfold download_ok. simpl. by rewrite Hreply, Hp, Hwp.
Qed.

(** X6 on the ids 1, 2, 3 when only asset files can be opened. *)
Lemma manifest_failure_keeps_downloads_witness :
  ∃ w' success_count fail_count,
    main ex_net (λ p, bool_decide (p ≠ ["out"; "assets.json"])) ex_dumps ex_path
      [1; 2; 3]%Z (init_world ∅)
    = (inl (OSError (manifest_path ex_path)), w')
    ∧ content_queries (trace w') = [1; 2; 3]%Z
    ∧ last (trace w')
      = Some (Echo (summary_line (length [1; 2; 3]%Z) success_count fail_count))
    ∧ fs w' !! manifest_path ex_path
      = (∅ : gmap Path data) !! manifest_path ex_path
    ∧ fs w' !! ["out"; "1.png"] = Some (Bytes []).
Proof.
  destruct (manifest_failure_keeps_downloads ex_net
              (λ p, bool_decide (p ≠ ["out"; "assets.json"])) ex_dumps ex_path
              [1; 2; 3]%Z ∅
              {[1%Z := ex_data 1; 2%Z := ex_data 2; 3%Z := ex_data 3]})
    as (w' & sc & fc & Hmain & Hq & Hlast & Hm & Hfiles).
  - vm_compute. reflexivity.
  - intros asset_id Hin.
    repeat (apply elem_of_cons in Hin as [->|Hin]; [by eexists|]).
    by apply elem_of_nil in Hin.
  - reflexivity.
  - exists w', sc, fc. split_and!; [done..|].
    apply (Hfiles 0 1%Z (ex_data 1)); reflexivity.
Defined.

(** The fetch stops at the first failed reply. *)
Lemma fetch_first_failure (net : network) n chunks results k id_chunk :
  chunks !! k = Some id_chunk →
  failed_reply (develop net (n + k) id_chunk) = true →
  (∀ j c, j < k → chunks !! j = Some c →
     failed_reply (develop net (n + j) c) = false) →
  fetch_result net n chunks results = inl (reply_exn (develop net (n + k) id_chunk))
  ∧ fetch_sent net n chunks = S k.
Proof.
  revert n results k. induction chunks as [|c rest IH]; intros n results k Hk Hf Hb.
  - done.
  - destruct k as [|k]; simpl in Hk.
    + injection Hk as ->. rewrite Nat.add_0_r in Hf. rewrite Nat.add_0_r.
      simpl. rewrite Hf.
      destruct (develop net n id_chunk) as [|s b]; simpl in *; [done|].
      apply bool_decide_eq_true in Hf. by rewrite decide_True.
    + pose proof (Hb 0 c ltac:(lia) eq_refl) as H0. rewrite Nat.add_0_r in H0.
      simpl. rewrite H0.
      destruct (develop net n c) as [|s b]; simpl in H0; [done|].
      apply bool_decide_eq_false in H0. rewrite decide_False by done.
      replace (n + S k) with (S n + k) in * by lia.
      destruct (IH (S n) (merge_data results b) k Hk Hf) as [-> ->]; [|done].
      intros j c' Hj Hc'. replace (S n + j) with (n + S j) by lia.
      apply Hb; [lia|done].
Qed.

(** X7, the metadata fetch stops at the first failure: if the reply to chunk
    [k] is the first failed one, [get_asset_information] raises what that
    reply stands for ([ClientConnectionError] for no response,
    [ClientResponseError] with the status otherwise) after exactly [k + 1]
    queries, those of the chunks 0..k in order; later chunks are never
    queried, and nothing else happens. *)
Theorem metadata_fetch_stops_at_first_failure (net : network)
    (asset_ids : list Z) (fs0 : gmap Path data) (k : nat) (id_chunk : list Z) :
  id_chunks asset_ids !! k = Some id_chunk →
  failed_reply (develop net k id_chunk) = true →
  (∀ j c, j < k → id_chunks asset_ids !! j = Some c →
     failed_reply (develop net j c) = false) →
  get_asset_information net asset_ids (init_world fs0)
  = (inl (match develop net k id_chunk with
          | ConnectionFailed => ClientConnectionError
          | Reply s _ => ClientResponseError s
          end),
     {| fs := fs0;
        trace := GetAssets <$> take (S k) (id_chunks asset_ids);
        develop_sent := S k;
        delivery_sent := 0 |}).
Proof.
  intros Hk Hf Hb. rewrite get_asset_information_closed.
  destruct (fetch_first_failure net 0 (id_chunks asset_ids) ∅ k id_chunk Hk Hf Hb)
    as [Hr Hs].
  unfold fetch_world. cbn [init_world develop_sent fs trace delivery_sent].
  rewrite Hr, Hs. done.
Qed.

(** X7 on 120 ids when the second metadata query is answered 500: the
    third chunk is never asked for. *)
Lemma metadata_fetch_stops_at_first_failure_witness :
  get_asset_information ex_net_down (seqZ 1 120) (init_world ∅)
  = (inl (ClientResponseError 500),
     {| fs := ∅;
        trace := [GetAssets (seqZ 1 50); GetAssets (seqZ 51 50)];
        develop_sent := 2;
        delivery_sent := 0 |}).
Proof.
  apply (metadata_fetch_stops_at_first_failure ex_net_down (seqZ 1 120) ∅ 1
           (seqZ 51 50)).
  - reflexivity.
  - reflexivity.
  - intros j c Hj Hc. assert (j = 0) as -> by lia.
    injection Hc as <-. reflexivity.
Defined.



(** ** The command line: strings *)

Lemma string_app_cons (c : Ascii.ascii) (s t : string) :
  String c s +:+ t = String c (s +:+ t).
Proof. reflexivity. Qed.

Lemma string_app_nil_l (s : string) : EmptyString +:+ s = s.
Proof. reflexivity. Qed.

Lemma string_app_nil_r (s : string) : s +:+ EmptyString = s.
Proof. induction s as [|c s IH]; [done|]. by rewrite string_app_cons, IH. Qed.

Lemma string_app_assoc (s t u : string) : (s +:+ t) +:+ u = s +:+ (t +:+ u).
Proof. induction s as [|c s IH]; [done|]. by rewrite !string_app_cons, IH. Qed.

Lemma string_forall_impl (P Q : Ascii.ascii → Prop) (s : string) :
  (∀ c, P c → Q c) → string_forall P s → string_forall Q s.
Proof. intros H. induction s as [|c s IH]; [done|]. intros [??]. split; auto. Qed.

Lemma string_forall_app (P : Ascii.ascii → Prop) (s t : string) :
  string_forall P s → string_forall P t → string_forall P (s +:+ t).
Proof.
  intros Hs Ht. induction s as [|c s IH]; [done|].
  destruct Hs. rewrite string_app_cons. split; auto.
Qed.

(** Characters: whitespace, commas, digits and signs are apart. *)
Lemma digit_value_range (c : Ascii.ascii) (d : Z) :
  digit_value c = Some d →
  48 ≤ Ascii.nat_of_ascii c ≤ 57 ∧ d = Z.of_nat (Ascii.nat_of_ascii c - 48).
Proof.
  unfold digit_value. generalize (Ascii.nat_of_ascii c). intros n.
  destruct (48 <=? n) eqn:H1; destruct (n <=? 57) eqn:H2; simpl; intros [= <-].
  apply Nat.leb_le in H1, H2. done.
Qed.

Lemma int_char_not_space (c : Ascii.ascii) :
  int_char c → str_space c = false ∧ int_space c = false ∧ c ≠ comma.
Proof.
  intros [->|[d Hd]]; [by split_and!|].
  apply digit_value_range in Hd as [Hn _].
  split_and!.
  - unfold str_space. generalize dependent (Ascii.nat_of_ascii c). intros n Hn.
    rewrite !orb_false_iff, !andb_false_iff, !Nat.leb_gt, !Nat.eqb_neq. lia.
  - unfold int_space. generalize dependent (Ascii.nat_of_ascii c). intros n Hn.
    rewrite !orb_false_iff, !andb_false_iff, !Nat.leb_gt, !Nat.eqb_neq. lia.
  - intros ->. vm_compute in Hn. lia.
Qed.

Lemma str_space_not_comma (c : Ascii.ascii) : str_space c = true → c ≠ comma.
Proof. by intros H ->. Qed.

Lemma int_space_str_space (c : Ascii.ascii) :
  int_space c = true → str_space c = true.
Proof.
  unfold int_space, str_space. generalize (Ascii.nat_of_ascii c). intros n.
  rewrite !orb_true_iff, !andb_true_iff, !Nat.leb_le, !Nat.eqb_eq. lia.
Qed.

(** Stripping. *)
Lemma lstrip_spaces (space : Ascii.ascii → bool) (l s : string) :
  string_forall (λ c, space c = true) l →
  lstrip space (l +:+ s) = lstrip space s.
Proof.
  induction l as [|c l IH]; [done|]. intros [Hc Hl].
  rewrite string_app_cons. simpl. rewrite Hc. by apply IH.
Qed.

Lemma lstrip_head (space : Ascii.ascii → bool) (s : string) :
  match s with String c _ => space c = false | EmptyString => True end →
  lstrip space s = s.
Proof. destruct s as [|c s]; [done|]. simpl. by intros ->. Qed.

Lemma rstrip_spaces (space : Ascii.ascii → bool) (r : string) :
  string_forall (λ c, space c = true) r → rstrip space r = EmptyString.
Proof.
  induction r as [|c r IH]; [done|]. intros [Hc Hr].
  simpl. by rewrite (IH Hr), Hc.
Qed.

Lemma rstrip_clean (space : Ascii.ascii → bool) (s r : string) :
  string_forall (λ c, space c = false) s →
  string_forall (λ c, space c = true) r →
  rstrip space (s +:+ r) = s.
Proof.
  intros Hs Hr. induction s as [|c s IH].
  - by apply rstrip_spaces.
  - destruct Hs as [Hc Hs]. rewrite string_app_cons. simpl.
    rewrite (IH Hs). destruct s; [by rewrite Hc|done].
Qed.

Lemma strip_padded (space : Ascii.ascii → bool) (l s r : string) :
  string_forall (λ c, space c = true) l →
  string_forall (λ c, space c = false) s →
  string_forall (λ c, space c = true) r →
  rstrip space (lstrip space (l +:+ s +:+ r)) = s.
Proof.
  intros Hl Hs Hr. rewrite (lstrip_spaces _ _ _ Hl).
  destruct s as [|c s].
  - rewrite string_app_nil_l.
    rewrite <- (string_app_nil_r r), (lstrip_spaces _ _ _ Hr). done.
  - rewrite lstrip_head by (rewrite string_app_cons; by destruct Hs).
    by apply rstrip_clean.
Qed.

(** Splitting at commas. *)
Lemma py_split_not_nil (sep : Ascii.ascii) (s : string) : py_split sep s ≠ [].
Proof.
  induction s as [|c s IH]; [done|]. simpl.
  destruct (decide (c = sep)); [done|]. by destruct (py_split sep s).
Qed.

Lemma py_split_no_sep (sep : Ascii.ascii) (x : string) :
  string_forall (λ c, c ≠ sep) x → py_split sep x = [x].
Proof.
  induction x as [|c x IH]; [done|]. intros [Hc Hx].
  simpl. rewrite decide_False by done. by rewrite (IH Hx).
Qed.

Lemma py_split_app (sep : Ascii.ascii) (x rest : string) :
  string_forall (λ c, c ≠ sep) x →
  py_split sep (x +:+ String sep rest) = x :: py_split sep rest.
Proof.
  induction x as [|c x IH].
  - intros _. rewrite string_app_nil_l. simpl. by rewrite decide_True.
  - intros [Hc Hx]. rewrite string_app_cons. simpl.
    rewrite decide_False by done. by rewrite (IH Hx).
Qed.

(** Splitting undoes joining, for at least one item and items without
    commas. *)
Lemma py_split_join (items : list string) :
  items ≠ [] →
  Forall (string_forall (λ c, c ≠ comma)) items →
  py_split comma (py_join "," items) = items.
Proof.
  induction items as [|x [|y rest] IH]; [done|..].
  - intros _ [Hx _]%Forall_cons. by apply py_split_no_sep.
  - intros _ [Hx Hrest]%Forall_cons.
    change (py_join "," (x :: y :: rest))
      with (x +:+ String comma (py_join "," (y :: rest))).
    rewrite (py_split_app _ _ _ Hx). f_equal. by apply IH.
Qed.

(** ** The command line: integer literals *)

Lemma scan_digits_app (s1 s2 : string) (st : bool * Z * nat) :
  scan_digits (s1 +:+ s2) st = scan_digits s1 st ≫= scan_digits s2.
Proof.
  revert st. induction s1 as [|c s1 IH]; intros [[b v] d]; [done|].
  rewrite string_app_cons. simpl.
  destruct (decide (c = underscore)); [destruct b; [done|apply IH]|].
  destruct (digit_value c); [apply IH|done].
Qed.

Lemma pretty_N_char_digit (r : N) :
  (r < 10)%N →
  digit_value (pretty_N_char r) = Some (Z.of_N r)
  ∧ pretty_N_char r ≠ underscore.
Proof.
  intros Hr.
  assert (r = 0 ∨ r = 1 ∨ r = 2 ∨ r = 3 ∨ r = 4 ∨ r = 5 ∨ r = 6 ∨ r = 7
          ∨ r = 8 ∨ r = 9)%N as Hcases by lia.
  repeat (destruct Hcases as [->|Hcases]; [by split|]). by subst.
Qed.

Lemma pretty_N_char_int_char (r : N) : int_char (pretty_N_char r).
Proof. right. unfold pretty_N_char. repeat case_match; by eexists. Qed.

Lemma pretty_N_go_app (x : N) (s : string) :
  pretty_N_go x s = pretty_N_go x EmptyString +:+ s.
Proof.
  revert s. induction (N.lt_wf_0 x) as [x _ IH]; intros s.
  destruct (decide (x = 0)%N) as [->|Hx]; [by rewrite !pretty_N_go_0|].
  rewrite !(pretty_N_go_step x) by lia.
  rewrite (IH (x `div` 10)%N) by (apply N.div_lt; lia).
  rewrite (IH (x `div` 10)%N ltac:(apply N.div_lt; lia) (String _ EmptyString)).
  by rewrite string_app_assoc.
Qed.

Lemma pretty_N_go_int_chars (x : N) (s : string) :
  string_forall int_char s → string_forall int_char (pretty_N_go x s).
Proof.
  revert s. induction (N.lt_wf_0 x) as [x _ IH]; intros s Hs.
  destruct (decide (x = 0)%N) as [->|Hx]; [by rewrite pretty_N_go_0|].
  rewrite pretty_N_go_step by lia.
  apply IH; [apply N.div_lt; lia|]. split; [|done].
  apply pretty_N_char_int_char.
Qed.

(** The decimal form of an integer has no whitespace and no comma. *)
Lemma pretty_Z_int_chars (z : Z) : string_forall int_char (pretty z).
Proof.
  assert (∀ x : N, string_forall int_char (pretty x)) as HN.
  { intros x. unfold pretty, pretty_N. case_decide.
    - split; [|done]. right. by eexists.
    - by apply pretty_N_go_int_chars. }
  destruct z as [|p|p]; unfold pretty, pretty_Z.
  - split; [|done]. right. by eexists.
  - apply HN.
  - split; [by left|]. apply HN.
Qed.

(** Reading back the digits of a positive number. *)
Lemma scan_pretty_N_go (x : N) (b : bool) (d : nat) :
  (0 < x)%N →
  scan_digits (pretty_N_go x EmptyString) (b, 0%Z, d)
  = Some (false, Z.of_N x, d + String.length (pretty_N_go x EmptyString)).
Proof.
  revert b d. induction (N.lt_wf_0 x) as [x _ IH]; intros b d Hx.
  rewrite pretty_N_go_step by done.
  destruct (pretty_N_char_digit (x `mod` 10)) as [Hdigit Hunder];
    [by apply N.mod_lt|].
  pose proof (N.div_mod x 10 ltac:(done)) as Hx10.
  assert (x `div` 10 = 0 ∨ x `div` 10 < x ∧ 0 < x `div` 10)%N as [Hq|[Hlt Hpos]].
  { destruct (decide (x `div` 10 = 0)%N); [by left|right].
    split; [by apply N.div_lt|by apply N.neq_0_lt_0]. }
  - assert (Z.of_N x = (10 * 0 + Z.of_N (x `mod` 10))%Z) as ->.
    { rewrite Hq in Hx10. rewrite Hx10 at 1.
      generalize (x `mod` 10)%N. intros r. lia. }
    rewrite Hq, pretty_N_go_0. simpl.
    rewrite decide_False, Hdigit by done. by rewrite Nat.add_1_r.
  - assert (Z.of_N x = (10 * Z.of_N (x `div` 10) + Z.of_N (x `mod` 10))%Z) as ->.
    { rewrite Hx10 at 1.
      generalize (x `mod` 10)%N, (x `div` 10)%N. intros r q. lia. }
    rewrite pretty_N_go_app, scan_digits_app.
    rewrite (IH _ Hlt b d Hpos). simpl.
    rewrite decide_False, Hdigit by done.
    rewrite string_length_app. simpl. do 3 f_equal. lia.
Qed.

Section IntLiterals.
Context (max_str_digits : nat).

Lemma too_many_digits_mono (d d' : nat) :
  d ≤ d' →
  too_many_digits max_str_digits d' = false →
  too_many_digits max_str_digits d = false.
Proof.
  unfold too_many_digits.
  rewrite !andb_false_iff, !Nat.ltb_ge. lia.
Qed.

Lemma int_strip_clean (s : string) :
  string_forall int_char s →
  rstrip int_space (lstrip int_space s) = s.
Proof.
  intros Hs.
  rewrite <- (string_app_nil_r s) at 1.
  rewrite <- (string_app_nil_l (s +:+ EmptyString)).
  apply strip_padded; [done| |done].
  eapply string_forall_impl; [|done]. intros c Hc.
  by apply int_char_not_space in Hc as (_ & ? & _).
Qed.

Lemma py_int_positive (p : positive) :
  too_many_digits max_str_digits (String.length (pretty (Zpos p))) = false →
  py_int max_str_digits (pretty (Zpos p)) = Some (Zpos p).
Proof.
  intros Hdigits. unfold py_int.
  rewrite (int_strip_clean _ (pretty_Z_int_chars (Zpos p))).
  change (pretty (Z.pos p)) with (pretty_N_go (N.pos p) EmptyString) in *.
  pose proof (scan_pretty_N_go (N.pos p) true 0 ltac:(done)) as Hscan.
  pose proof (pretty_N_go_int_chars (N.pos p) EmptyString I) as Hchars.
  destruct (pretty_N_go (N.pos p) EmptyString) as [|c body] eqn:Hs; [done|].
  destruct Hchars as [[->|[dv Hdv]] _]; [done|].
  rewrite decide_False by (by intros ->).
  rewrite decide_False by (by intros ->).
  rewrite Hscan. cbn [Nat.add]. by rewrite Hdigits.
Qed.

(** [int(str(z)) == z], as long as [z] has no more digits than [int()]
    converts. *)
Lemma py_int_pretty (z : Z) :
  too_many_digits max_str_digits (String.length (pretty z)) = false →
  py_int max_str_digits (pretty z) = Some z.
Proof.
  destruct z as [|p|p]; intros Hdigits.
  - done.
  - by apply py_int_positive.
  - unfold py_int.
    rewrite (int_strip_clean _ (pretty_Z_int_chars (Zneg p))).
    change (pretty (Z.neg p))
      with (String minus_sign (pretty_N_go (N.pos p) EmptyString)) in *.
    cbn iota beta.
    rewrite decide_False by done. rewrite decide_True by done.
    rewrite (scan_pretty_N_go (N.pos p) true 0) by done.
    assert (too_many_digits max_str_digits
              (0 + String.length (pretty_N_go (N.pos p) EmptyString)) = false)
      as Hd.
    { eapply too_many_digits_mono; [|exact Hdigits]. simpl. lia. }
    by rewrite Hd.
Qed.

End IntLiterals.

(** ** The command [root] *)

Section Root.
Context (net : network).
Context (writable : Path → bool).
Context (json_dumps : pyval → string).
Context (path_exists : Path → bool).
Context (max_str_digits : nat).

Lemma int_each_length (items : list string) (ns : list Z) :
  int_each max_str_digits items = inr ns → length ns = length items.
Proof.
  revert ns. induction items as [|x rest IH]; intros ns; simpl.
  - by intros [= <-].
  - destruct (py_int _ _); [|done].
    destruct (int_each max_str_digits rest); [done|].
    intros [= <-]. simpl. by rewrite (IH _ eq_refl).
Qed.


Lemma padded_id_strip (item : string * Z * string) :
  string_forall (λ c, str_space c = true) item.1.1 →
  string_forall (λ c, str_space c = true) item.2 →
  py_strip (padded_id item) = pretty item.1.2.
Proof.
  intros Hl Hr. unfold py_strip, padded_id.
  apply strip_padded; [done| |done].
  eapply string_forall_impl; [|apply pretty_Z_int_chars].
  intros c Hc. by apply int_char_not_space in Hc as (? & _).
Qed.

Lemma padded_id_no_comma (item : string * Z * string) :
  string_forall (λ c, str_space c = true) item.1.1 →
  string_forall (λ c, str_space c = true) item.2 →
  string_forall (λ c, c ≠ comma) (padded_id item).
Proof.
  intros Hl Hr. unfold padded_id.
  repeat apply string_forall_app.
  - eapply string_forall_impl; [|exact Hl]. apply str_space_not_comma.
  - eapply string_forall_impl; [|apply pretty_Z_int_chars].
    intros c Hc. by apply int_char_not_space in Hc as (_ & _ & ?).
  - eapply string_forall_impl; [|exact Hr]. apply str_space_not_comma.
Qed.

Lemma int_each_padded (items : list (string * Z * string)) :
  (∀ item, item ∈ items →
     string_forall (λ c, str_space c = true) item.1.1
     ∧ string_forall (λ c, str_space c = true) item.2
     ∧ too_many_digits max_str_digits (String.length (pretty item.1.2)) = false) →
  int_each max_str_digits (padded_id <$> items)
  = inr ((λ item, item.1.2) <$> items).
Proof.
  induction items as [|item rest IH]; intros Hitems; [done|].
  destruct (Hitems item) as (Hl & Hr & Hd); [by left|].
  rewrite !fmap_cons. cbn [int_each].
  rewrite (padded_id_strip _ Hl Hr), (py_int_pretty _ _ Hd).
  rewrite IH; [done|]. intros i Hi. apply Hitems. by right.
Qed.

End Root.

(** X9, reading the id list: for a path that exists and an [--asset-ids]
    string made of one or more ids in decimal form, separated by commas and
    each with any whitespace around it, [root] does what [main] does on these
    ids, in that order (an exception of [main] goes through). Each id must
    have no more digits than [int()] converts. *)
Theorem root_runs_main_on_the_ids (net : network) (writable : Path → bool)
    (json_dumps : pyval → string) (path_exists : Path → bool)
    (max_str_digits : nat) (path : Path) (items : list (string * Z * string))
    (token : option string) (w : world) :
  path_exists path = true →
  items ≠ [] →
  (∀ item, item ∈ items →
     string_forall (λ c, str_space c = true) item.1.1
     ∧ string_forall (λ c, str_space c = true) item.2
     ∧ too_many_digits max_str_digits (String.length (pretty item.1.2)) = false) →
  root net writable json_dumps path_exists max_str_digits path
    (py_join "," (padded_id <$> items)) token w
  = match main net writable json_dumps path ((λ item, item.1.2) <$> items) w with
    | (inl e, w') => (inl (Raised e), w')
    | (inr _, w') => (inr tt, w')
    end.
Proof.
  intros Hpath Hne Hitems. unfold root. rewrite Hpath. cbn [negb].
  rewrite py_split_join.
  - rewrite (int_each_padded _ _ Hitems).
    rewrite decide_False; [done|].
    rewrite length_fmap. by destruct items.
  - by destruct items.
  - apply Forall_fmap, Forall_forall. intros item Hin. simpl.
    destruct (Hitems item Hin) as (Hl & Hr & _).
    by apply padded_id_no_comma.
Qed.

(** X9 on the string [1, 2 ,3], with a space on each side of 2: the run is
    the run of [main] on 1, 2, 3. *)
Lemma root_runs_main_on_the_ids_witness :
  root ex_net ex_writable ex_dumps (λ _, true) 4300 ex_path
    "1, 2 ,3" None (init_world ∅)
  = match main ex_net ex_writable ex_dumps ex_path [1; 2; 3]%Z (init_world ∅) with
    | (inl e, w') => (inl (Raised e), w')
    | (inr _, w') => (inr tt, w')
    end.
Proof.
  apply (root_runs_main_on_the_ids ex_net ex_writable ex_dumps (λ _, true) 4300
           ex_path [("", 1%Z, ""); (" ", 2%Z, " "); ("", 3%Z, "")] None
           (init_world ∅)).
  - reflexivity.
  - discriminate.
  - intros item Hin.
    repeat (apply elem_of_cons in Hin as [->|Hin]; [by split_and!|]).
    by apply elem_of_nil in Hin.
Defined.

(** X10, the assertions of [root]: [root] raises [AssertionError] only when
    the path does not exist, and then before anything else happens. The
    second assertion, on the number of ids, never fails: splitting gives at
    least one item, and an item that is no integer literal raises
    [ValueError] first. *)
Theorem root_asserts_only_the_path (net : network) (writable : Path → bool)
    (json_dumps : pyval → string) (path_exists : Path → bool)
    (max_str_digits : nat) (path : Path) (asset_ids : string)
    (token : option string) (w : world) (msg : string) :
  (root net writable json_dumps path_exists max_str_digits path asset_ids
     token w).1 = inl (AssertionError msg) →
  msg = "Path does not exist."
  ∧ path_exists path = false
  ∧ (root net writable json_dumps path_exists max_str_digits path asset_ids
       token w).2 = w.
Proof.
  unfold root. destruct (path_exists path); cbn [negb].
  - destruct (int_each max_str_digits (py_split comma asset_ids)) as [|ids] eqn:Hids;
      [done|].
    destruct (decide (length ids = 0)) as [Hlen|_].
    + apply int_each_length in Hids. rewrite Hlen in Hids.
      symmetry in Hids. apply nil_length_inv in Hids.
      by apply py_split_not_nil in Hids.
    + by destruct (main net writable json_dumps path ids w) as [[e|[]] w'].
  - by intros [= <-].
Qed.

(** X10 on a path that does not exist. *)
Lemma root_asserts_only_the_path_witness :
  "Path does not exist." = "Path does not exist."
  ∧ (λ _ : Path, false) ex_path = false
  ∧ (root ex_net ex_writable ex_dumps (λ _, false) 4300 ex_path "1,2" None
       (init_world ∅)).2 = init_world ∅.
Proof.
  apply (root_asserts_only_the_path ex_net ex_writable ex_dumps (λ _, false) 4300
           ex_path "1,2" None (init_world ∅)).
  reflexivity.
Defined.


